(** * Flowise document-store refresher: trigger, monitor and status buckets

    A shallow embedding of [flowise_utils.py] and
    [flowise_document_refresher.py], and of the store selection of
    [flowise_document_refresher_auto.py].

    - Python [str] is modelled by [string] (a sequence of bytes, UTF-8 for
      the few non-ASCII literals); [str.upper] is modelled on the ASCII
      letters, every other byte is left as it is.
    - Python [int] is [Z]; the [float] seconds of [time.time()] are
      rationals [Q].
    - The [async] functions run one after the other inside one task, so a
      coroutine is a state transformer over a [World] that records every
      effect (clock reads, HTTP requests, sleeps, prints, log records);
      what the outside answers is given by an oracle [Env].
    - The module logger is created by [setup_logging] at level INFO, hence
      every [logger.debug] call is dropped by the logger: the [debug_mode]
      branches have no observable effect and are left out.  Its one
      handler is a [StreamHandler] on [sys.stdout] with the format
      ['%(message)s']: a log record ends up on the standard output like a
      printed line.  [World] keeps the records apart from the lines of
      [print], so the order between the two kinds is not modelled.
    - [aiohttp.ClientResponseError] has the attributes [request_info],
      [history], [status], [message] and [headers], and no attribute
      [response]: reading [e.response] raises [AttributeError]. *)

From Stdlib Require Import ZArith QArith Qround String Ascii List DecimalString.
From stdpp Require Import base gmap strings list sorting.

Open Scope string_scope.
Open Scope Z_scope.

(** ** Strings and number formatting *)

Module PyStr.

(** [c.upper()] for one ASCII character. *)
Definition upper_ascii (c : ascii) : ascii :=
  let n := nat_of_ascii c in
  if (Nat.leb 97 n && Nat.leb n 122)%bool then ascii_of_nat (n - 32) else c.

(** [s.upper()]. *)
Fixpoint upper (s : string) : string :=
  match s with
  | EmptyString => EmptyString
  | String c rest => String (upper_ascii c) (upper rest)
  end.

(** [s * n] for a string [s]. *)
Fixpoint repeat_str (s : string) (n : nat) : string :=
  match n with
  | O => ""
  | S k => s ++ repeat_str s k
  end.

(** The newline character. *)
Definition nl : string := String (ascii_of_nat 10) EmptyString.

(** [str(n)] and [f"{n}"] for an [int]. *)
Definition str_int (n : Z) : string := NilZero.string_of_int (Z.to_int n).

(** Walks the digits from the least significant one and puts a comma
    before every fourth, seventh, ... digit; [k] counts the digits of
    the group being filled. *)
Fixpoint group3 (ds : list ascii) (k : nat) : list ascii :=
  match ds with
  | [] => []
  | d :: rest =>
      if Nat.eqb k 3 then "," %char :: d :: group3 rest 1
      else d :: group3 rest (S k)
  end.

(** [f"{n:,}"] for an [int]: thousands separated by commas. *)
Definition fmt_commas (n : Z) : string :=
  let digits := list_ascii_of_string (str_int (Z.abs n)) in
  let grouped := string_of_list_ascii (rev (group3 (rev digits) 0)) in
  if n <? 0 then "-" ++ grouped else grouped.

(** Truthiness of an [Optional[str]]: [None] and [""] are falsy. *)
Definition truthy (o : option string) : bool :=
  match o with
  | None => false
  | Some "" => false
  | Some _ => true
  end.

(** What an f-string prints for an [Optional[str]]. *)
Definition fmt_opt (o : option string) : string :=
  match o with
  | None => "None"
  | Some s => s
  end.

End PyStr.

(** ** Seconds as rationals *)

Module PyFloat.

Definition Qltb (a b : Q) : bool := negb (Qle_bool b a).

(** [int(x)]: truncation towards zero. *)
Definition int_of (x : Q) : Z :=
  if Qle_bool 0 x then Qfloor x else Qceiling x.

(** [x // d] for a positive integer literal [d]. *)
Definition floordiv (x : Q) (d : Z) : Q := inject_Z (Qfloor (x / inject_Z d)).

(** [x % d] for a positive integer literal [d]. *)
Definition modulo (x : Q) (d : Z) : Q := x - inject_Z d * floordiv x d.

End PyFloat.

(** ** flowise_utils.py *)

Definition REFRESHABLE_STATUSES : gset string := {[ "UPSERTED" ]}.

Definition BUSY_STATUSES : gset string := {[ "SYNCING"; "UPSERTING" ]}.

Definition WAITING_STATUSES : gset string := {[ "STALE" ]}.

(** [DocumentStore] is a [TypedDict] with [total=False]: every key may be
    absent.  Only the keys read by the refresher are kept. *)
Record DocumentStore := mkStore {
  ds_id : option string;
  ds_name : option string;
  ds_status : option string;
  ds_totalChunks : option Z;
  ds_totalChars : option Z
}.

(** [d.get(key, dflt)] on an optional key. *)
Definition get {A} (field : option A) (dflt : A) : A :=
  match field with
  | Some v => v
  | None => dflt
  end.

Definition Headers := list (string * string).

Definition get_headers (api_key : string) : Headers :=
  [ ("Authorization", "Bearer " ++ api_key);
    ("Content-Type", "application/json") ].

(** ** Status buckets *)

Inductive StatusBucket := Refreshable | Busy | Waiting | Unknown.

(** The [if]/[elif] chain on [current_status] in
    [monitor_refresh_progress]: the status is upper-cased, then looked up
    in the three sets in the order refreshable, busy, waiting. *)
Definition bucket_of_upper (current_status : string) : StatusBucket :=
  if bool_decide (current_status ∈ REFRESHABLE_STATUSES) then Refreshable
  else if bool_decide (current_status ∈ BUSY_STATUSES) then Busy
  else if bool_decide (current_status ∈ WAITING_STATUSES) then Waiting
  else Unknown.

Definition classify (status : string) : StatusBucket :=
  bucket_of_upper (PyStr.upper status).

(** ** filter_refreshable_stores *)

(** One turn of the [for] loop; [continue] leaves the list as it is. *)
Definition filter_step (refreshable : list DocumentStore) (store : DocumentStore)
  : list DocumentStore :=
  let status := PyStr.upper (get (ds_status store) "UNKNOWN") in
  if bool_decide (status ∈ WAITING_STATUSES) then refreshable
  else if bool_decide (status ∈ BUSY_STATUSES) then refreshable
  else if bool_decide (status ∈ REFRESHABLE_STATUSES) then refreshable ++ [store]
  else refreshable.

Definition filter_refreshable_stores (stores : list DocumentStore)
  : list DocumentStore :=
  fold_left filter_step stores [].

(** ** The outside world *)

Inductive Verb := HttpGet | HttpPost | HttpPut.

(** The JSON bodies the refresher sends: objects and arrays suffice. *)
#[local] Set Warnings "-register-all".
Inductive Json :=
| JObject (fields : list (string * Json))
| JArray (items : list Json).

Record Request := mkRequest {
  req_verb : Verb;
  req_url : string;
  req_headers : Headers;
  req_json : option Json
}.

(** What one POST or PUT of [_try_refresh_request] runs into, one
    constructor per exit of its [try] block.  In the first two the
    response arrived and its body and headers were read into
    [response_text] and [response_headers]. *)
Inductive Exchange :=
| Responded (status : Z) (response_text : string) (response_headers : Headers)
    (** [raise_for_status] passes *)
| RaisedResponseError (status : Z) (response_text : string)
    (response_headers : Headers)
    (** [raise_for_status] raises [aiohttp.ClientResponseError] with the
        status of the response *)
| RaisedOther (message : string)
    (** any other exception, [message] is [str(e)] *).

(** What the GET of [fetch_document_store_status] runs into. *)
Inductive StoreExchange :=
| Fetched (data : option DocumentStore)
    (** the decoded JSON body; [None] for JSON [null] *)
| FetchRaised (message : string).

Inductive LogLevel := WARNING | INFO | ERROR.

(** Every effect performed so far, oldest first: [stdout] holds the
    lines written by [print], [logged] the records the module logger
    emits. *)
Record World := mkWorld {
  clock_reads : nat;
  requests : list Request;
  sleeps : list Z;
  stdout : list string;
  logged : list (LogLevel * string)
}.

Definition world0 : World := mkWorld 0 [] [] [] [].

(** The answers of the outside: the [k]-th reading of the clock, and the
    outcome of a request given how many requests went out before it. *)
Record Env := mkEnv {
  env_time : nat -> Q;
  env_refresh : nat -> Request -> Exchange;
  env_store : nat -> Request -> StoreExchange
}.

(** Module-level settings read from the environment variables
    [STATUS_CHECK_INTERVAL] and [MAX_REFRESH_TIMEOUT]. *)
Record Config := mkConfig {
  STATUS_CHECK_INTERVAL : Z;
  MAX_REFRESH_TIMEOUT : Z
}.

Definition default_config : Config := mkConfig 15 600.

(** ** Coroutines as state transformers *)

Definition M (A : Type) : Type := World -> A * World.

#[global] Instance M_ret : MRet M := fun A a w => (a, w).

#[global] Instance M_bind : MBind M :=
  fun A B f m w => let '(a, w') := m w in f a w'.

Definition print (line : string) : M unit := fun w =>
  (tt, mkWorld (clock_reads w) (requests w) (sleeps w)
               (stdout w ++ [line]) (logged w)).

Definition log (level : LogLevel) (msg : string) : M unit := fun w =>
  (tt, mkWorld (clock_reads w) (requests w) (sleeps w)
               (stdout w) (logged w ++ [(level, msg)])).

Definition asyncio_sleep (seconds : Z) : M unit := fun w =>
  (tt, mkWorld (clock_reads w) (requests w) (sleeps w ++ [seconds])
               (stdout w) (logged w)).

Section Program.

Variable env : Env.
Variable cfg : Config.

Definition time_time : M Q := fun w =>
  (env_time env (clock_reads w),
   mkWorld (S (clock_reads w)) (requests w) (sleeps w) (stdout w) (logged w)).

Definition send_refresh (r : Request) : M Exchange := fun w =>
  (env_refresh env (length (requests w)) r,
   mkWorld (clock_reads w) (requests w ++ [r]) (sleeps w) (stdout w) (logged w)).

Definition send_get (r : Request) : M StoreExchange := fun w =>
  (env_store env (length (requests w)) r,
   mkWorld (clock_reads w) (requests w ++ [r]) (sleeps w) (stdout w) (logged w)).

(** *** flowise_utils.fetch_document_store_status *)

Definition status_request (base_url api_key : string) (store_id : option string)
  : Request :=
  mkRequest HttpGet
    (base_url ++ "/api/v1/document-store/store/" ++ PyStr.fmt_opt store_id)
    (get_headers api_key) None.

Definition fetch_document_store_status
    (base_url api_key : string) (store_id : option string)
  : M (option DocumentStore) :=
  ex ← send_get (status_request base_url api_key store_id);
  match ex with
  | Fetched data => mret data
  | FetchRaised e =>
      log WARNING ("Failed to fetch status for store "
                   ++ PyStr.fmt_opt store_id ++ ": " ++ e);;
      mret None
  end.

(** *** _try_refresh_request *)

(** The tuple returned on each exit of the [try] block.  The handler of
    [ClientResponseError] first sets [response_text = ""] and
    [response_headers = {}], then reads [e.response] inside a [try] of
    its own: the lookup raises [AttributeError] and the bare [except]
    passes, so the two variables stay as the handler set them and what
    was read from the response is not returned. *)
Definition try_result (ex : Exchange) : bool * Z * string * Headers :=
  match ex with
  | Responded status response_text response_headers =>
      (true, status, response_text, response_headers)
  | RaisedResponseError status _ _ =>
      let response_text := "" in
      let response_headers := [] in
      (false, status, response_text, response_headers)
  | RaisedOther e =>
      (false, 0, e, [])
  end.

(** [session.post if method == "POST" else session.put]. *)
Definition request_method (method : string) : Verb :=
  if String.eqb method "POST" then HttpPost else HttpPut.

Definition _try_refresh_request
    (url : string) (headers : Headers) (payload : option Json) (method : string)
  : M (bool * Z * string * Headers) :=
  ex ← send_refresh (mkRequest (request_method method) url headers payload);
  mret (try_result ex).

(** *** trigger_refresh *)

Definition attempts : list (string * option Json * string) :=
  [ ("POST", None, "POST with no body");
    ("POST", Some (JObject []), "POST with empty JSON object");
    ("POST", Some (JObject [("items", JArray [])]), "POST with empty items array");
    ("PUT", None, "PUT with no body");
    ("PUT", Some (JObject []), "PUT with empty JSON object") ].

(** How the [for] loop over the attempts ends: by [return True], or by
    running off the list with the [last_error_*] variables as they
    stand. *)
Inductive ForExit :=
| ReturnedTrue
| Exhausted (last_error_status : Z) (last_error_message : string)
            (last_error_headers : Headers).

Fixpoint attempt_loop (url : string) (headers : Headers)
    (todo : list (string * option Json * string))
    (last_error_status : Z) (last_error_message : string)
    (last_error_headers : Headers) : M ForExit :=
  match todo with
  | [] => mret (Exhausted last_error_status last_error_message last_error_headers)
  | (method, payload, description) :: rest =>
      '(success, status, response_text, response_headers) ←
        _try_refresh_request url headers payload method;
      if (success : bool) then mret ReturnedTrue
      else attempt_loop url headers rest status response_text response_headers
  end.

Definition error_line (store_id : option string)
    (last_error_status : Z) (last_error_message : string) : string :=
  let error_detail :=
    if String.eqb last_error_message "" then ""
    else PyStr.nl ++ "   API Response: " ++ last_error_message in
  if 0 <? last_error_status then
    "Failed to trigger refresh for store " ++ PyStr.fmt_opt store_id
      ++ ": HTTP " ++ PyStr.str_int last_error_status ++ error_detail
  else
    "Failed to trigger refresh for store " ++ PyStr.fmt_opt store_id
      ++ ": " ++ last_error_message.

Definition hints : list (LogLevel * string) :=
  [ (INFO, "Hint: HTTP 500 indicates an internal server error in Flowise.");
    (INFO, "   Possible causes:");
    (INFO, "   - The document store may not have any loaders configured");
    (INFO, "   - The vector store configuration may be invalid");
    (INFO, "   - Check the Flowise server logs for more details") ].

Fixpoint log_all (records : list (LogLevel * string)) : M unit :=
  match records with
  | [] => mret tt
  | (level, msg) :: rest => log level msg;; log_all rest
  end.

Definition refresh_url (base_url : string) (store_id : option string) : string :=
  base_url ++ "/api/v1/document-store/refresh/" ++ PyStr.fmt_opt store_id.

Definition trigger_refresh
    (base_url api_key : string) (store_id : option string) : M bool :=
  let url := refresh_url base_url store_id in
  let headers := get_headers api_key in
  exit ← attempt_loop url headers attempts 0 "" [];
  match exit with
  | ReturnedTrue => mret true
  | Exhausted last_error_status last_error_message last_error_headers =>
      log ERROR (error_line store_id last_error_status last_error_message);;
      (if last_error_status =? 500 then log_all hints else mret tt);;
      mret false
  end.

End Program.

(** ** RefreshMonitor *)

Record RefreshMonitor := mkMonitor {
  store : DocumentStore;
  store_id : option string;
  store_name : string;
  start_time : Q;
  status : string;
  completed : bool;
  error : option string;
  final_status : option string;
  iteration_count : Z;
  last_chunks : Z;
  initial_chunks : Z
}.

(** [monitor.error = e; monitor.completed = True]. *)
Definition fail_with (e : string) (m : RefreshMonitor) : RefreshMonitor :=
  mkMonitor (store m) (store_id m) (store_name m) (start_time m) (status m)
    true (Some e) (final_status m) (iteration_count m) (last_chunks m)
    (initial_chunks m).

(** The three assignments after a successful fetch:
    [iteration_count += 1], [status = current_status],
    [last_chunks = current_chunks]. *)
Definition record_poll (current_status : string) (current_chunks : Z)
    (m : RefreshMonitor) : RefreshMonitor :=
  mkMonitor (store m) (store_id m) (store_name m) (start_time m) current_status
    (completed m) (error m) (final_status m) (iteration_count m + 1)
    current_chunks (initial_chunks m).

(** [monitor.completed = True; monitor.final_status = current_status]. *)
Definition complete_with (current_status : string) (m : RefreshMonitor)
  : RefreshMonitor :=
  mkMonitor (store m) (store_id m) (store_name m) (start_time m) (status m)
    true (error m) (Some current_status) (iteration_count m) (last_chunks m)
    (initial_chunks m).

Definition format_elapsed_time (seconds : Q) : string :=
  if PyFloat.Qltb seconds (inject_Z 60) then
    PyStr.str_int (PyFloat.int_of seconds) ++ "s"
  else if PyFloat.Qltb seconds (inject_Z 3600) then
    let minutes := PyFloat.int_of (PyFloat.floordiv seconds 60) in
    let secs := PyFloat.int_of (PyFloat.modulo seconds 60) in
    PyStr.str_int minutes ++ "m " ++ PyStr.str_int secs ++ "s"
  else
    let hours := PyFloat.int_of (PyFloat.floordiv seconds 3600) in
    let minutes :=
      PyFloat.int_of (PyFloat.floordiv (PyFloat.modulo seconds 3600) 60) in
    PyStr.str_int hours ++ "h " ++ PyStr.str_int minutes ++ "m".

(** The horizontal rule printed around the reports: sixty box-drawing
    dashes. *)
Definition rule60 : string := PyStr.repeat_str "─" 60.

(** How one turn of [while True] ends. *)
Inductive LoopCtl := Break | Continue.

Section Monitor.

Variable env : Env.
Variable cfg : Config.

(** [RefreshMonitor.__init__]; it reads the clock for [start_time]. *)
Definition new_monitor (s : DocumentStore) : M RefreshMonitor :=
  now ← time_time env;
  mret (mkMonitor s (ds_id s) (get (ds_name s) "Unnamed Store") now "STARTING"
          false None None 0 0 (get (ds_totalChunks s) 0)).

(** [chunks_delta], evaluated after [iteration_count] was incremented
    and before [last_chunks] is overwritten. *)
Definition chunks_delta (iteration_count' last_chunks current_chunks : Z) : Z :=
  if 1 <? iteration_count' then current_chunks - last_chunks else 0.

(** [chunks_delta] of a poll that fetched [store_data], from the monitor
    as it stands when the fetch returns. *)
Definition poll_delta (monitor : RefreshMonitor) (store_data : DocumentStore) : Z :=
  chunks_delta (iteration_count monitor + 1) (last_chunks monitor)
               (get (ds_totalChunks store_data) 0).

(** [chunk_info] of the busy branch. *)
Definition chunk_info (current_chunks delta : Z) : string :=
  let base := "Chunks: " ++ PyStr.fmt_commas current_chunks in
  if 0 <? delta then
    base ++ " (+" ++ PyStr.fmt_commas delta ++ " since last check)"
  else if delta <? 0 then
    base ++ " (" ++ PyStr.fmt_commas delta ++ " since last check)"
  else base.

(** The body of [while True] in [monitor_refresh_progress]. *)
Definition poll_cycle (base_url api_key : string) (monitor : RefreshMonitor)
  : M (LoopCtl * RefreshMonitor) :=
  now ← time_time env;
  let elapsed := (now - start_time monitor)%Q in
  if PyFloat.Qltb (inject_Z (MAX_REFRESH_TIMEOUT cfg)) elapsed then
    let monitor := fail_with ("Timeout after " ++ format_elapsed_time elapsed) monitor in
    print (PyStr.nl ++ store_name monitor ++ ": Timeout after "
           ++ format_elapsed_time elapsed);;
    print ("   Total iterations: " ++ PyStr.str_int (iteration_count monitor));;
    print rule60;;
    mret (Break, monitor)
  else
    store_data ← fetch_document_store_status env base_url api_key (store_id monitor);
    match store_data with
    | None =>
        print (store_name monitor ++ ": Failed to fetch status, retrying...");;
        asyncio_sleep (STATUS_CHECK_INTERVAL cfg);;
        mret (Continue, monitor)
    | Some store_data =>
        let current_status := PyStr.upper (get (ds_status store_data) "UNKNOWN") in
        let current_chunks := get (ds_totalChunks store_data) 0 in
        let delta := poll_delta monitor store_data in
        let monitor := record_poll current_status current_chunks monitor in
        let elapsed_str := format_elapsed_time elapsed in
        let iteration_info :=
          "[Check #" ++ PyStr.str_int (iteration_count monitor) ++ "]" in
        match bucket_of_upper current_status with
        | Refreshable =>
            let monitor := complete_with current_status monitor in
            print (PyStr.nl ++ store_name monitor ++ ": Completed in "
                   ++ elapsed_str ++ " " ++ iteration_info);;
            print ("   Final status: " ++ current_status);;
            print ("   Final chunks: " ++ PyStr.fmt_commas current_chunks
                   ++ " (Initial: " ++ PyStr.fmt_commas (initial_chunks monitor)
                   ++ ")");;
            print ("   Total iterations: "
                   ++ PyStr.str_int (iteration_count monitor));;
            print rule60;;
            mret (Break, monitor)
        | Busy =>
            print (store_name monitor ++ ": " ++ current_status ++ " "
                   ++ iteration_info);;
            print ("   " ++ chunk_info current_chunks delta);;
            print ("   Elapsed: " ++ elapsed_str ++ " | Next check in "
                   ++ PyStr.str_int (STATUS_CHECK_INTERVAL cfg) ++ "s");;
            print "";;
            asyncio_sleep (STATUS_CHECK_INTERVAL cfg);;
            mret (Continue, monitor)
        | Waiting =>
            print (store_name monitor ++ ": " ++ current_status
                   ++ " (Awaiting update) " ++ iteration_info);;
            print ("   Chunks: " ++ PyStr.fmt_commas current_chunks);;
            print ("   Elapsed: " ++ elapsed_str);;
            asyncio_sleep (STATUS_CHECK_INTERVAL cfg);;
            mret (Continue, monitor)
        | Unknown =>
            print (store_name monitor ++ ": Status " ++ current_status ++ " "
                   ++ iteration_info);;
            print ("   Chunks: " ++ PyStr.fmt_commas current_chunks);;
            print ("   Elapsed: " ++ elapsed_str);;
            asyncio_sleep (STATUS_CHECK_INTERVAL cfg);;
            mret (Continue, monitor)
        end
    end.

(** [while True] unrolled at most [fuel] times.  [Break] comes with the
    monitor at the [break]; [Continue] means the loop is still turning
    after [fuel] cycles, and comes with the monitor reached by then. *)
Fixpoint monitor_loop (fuel : nat) (base_url api_key : string)
    (monitor : RefreshMonitor) : M (LoopCtl * RefreshMonitor) :=
  match fuel with
  | O => mret (Continue, monitor)
  | S fuel' =>
      '(ctl, monitor) ← poll_cycle base_url api_key monitor;
      match ctl with
      | Break => mret (Break, monitor)
      | Continue => monitor_loop fuel' base_url api_key monitor
      end
  end.

Definition monitor_refresh_progress (fuel : nat) (base_url api_key : string)
    (monitor : RefreshMonitor) : M (option RefreshMonitor) :=
  print (PyStr.nl ++ rule60);;
  print ("Started refresh for: " ++ store_name monitor);;
  print ("   Initial chunks: " ++ PyStr.fmt_commas (initial_chunks monitor));;
  print rule60;;
  '(ctl, monitor) ← monitor_loop fuel base_url api_key monitor;
  match ctl with
  | Break => mret (Some monitor)
  | Continue => mret None
  end.

(** *** refresh_and_monitor *)

Definition refresh_and_monitor (fuel : nat) (base_url api_key : string)
    (s : DocumentStore) : M (option RefreshMonitor) :=
  monitor ← new_monitor s;
  success ← trigger_refresh env base_url api_key (store_id monitor);
  if negb success then
    mret (Some (fail_with "Failed to trigger refresh" monitor))
  else
    monitor_refresh_progress fuel base_url api_key monitor.

(** *** display_summary *)

(** The [for] loop of [display_summary] with its two counters. *)
Fixpoint summary_loop (monitors : list RefreshMonitor) (successful failed : Z)
  : M (Z * Z) :=
  match monitors with
  | [] => mret (successful, failed)
  | monitor :: rest =>
      now ← time_time env;
      let elapsed_str := format_elapsed_time (now - start_time monitor)%Q in
      let '(successful, failed, status_icon, status_msg) :=
        if PyStr.truthy (error monitor) then
          (successful, failed + 1, "X", "FAILED - " ++ PyStr.fmt_opt (error monitor))
        else
          (successful + 1, failed, "V",
           "SUCCESS - Final Status: " ++ PyStr.fmt_opt (final_status monitor)) in
      print (status_icon ++ " " ++ store_name monitor);;
      print ("   Duration: " ++ elapsed_str);;
      print ("   Status Checks: " ++ PyStr.str_int (iteration_count monitor));;
      print ("   Initial Chunks: " ++ PyStr.fmt_commas (initial_chunks monitor));;
      print ("   Final Chunks: " ++ PyStr.fmt_commas (last_chunks monitor));;
      (let chunk_diff := last_chunks monitor - initial_chunks monitor in
       if 0 <? chunk_diff then
         print ("   Chunks Added: +" ++ PyStr.fmt_commas chunk_diff)
       else if chunk_diff <? 0 then
         print ("   Chunks Changed: " ++ PyStr.fmt_commas chunk_diff)
       else print "   Chunks Changed: No change");;
      print ("   Result: " ++ status_msg);;
      print "";;
      summary_loop rest successful failed
  end.

Definition display_summary (monitors : list RefreshMonitor) : M unit :=
  print (PyStr.nl ++ PyStr.repeat_str "=" 80);;
  print "Refresh Summary";;
  print (PyStr.repeat_str "=" 80);;
  '(successful, failed) ← summary_loop monitors 0 0;
  print (PyStr.repeat_str "=" 80);;
  print ("Total: " ++ PyStr.str_int (Z.of_nat (length monitors))
         ++ " | Successful: " ++ PyStr.str_int successful
         ++ " | Failed: " ++ PyStr.str_int failed);;
  print (PyStr.repeat_str "=" 80).

End Monitor.

(** ** Vocabulary of the statements *)

#[global] Instance StatusBucket_eq_dec : EqDecision StatusBucket.
Proof. solve_decision. Defined.

(** The bucket of a store record, with the default the code gives to a
    missing status. *)
Definition store_bucket (s : DocumentStore) : StatusBucket :=
  classify (get (ds_status s) "UNKNOWN").

(** World after the requests [rs] went out. *)
Definition sent (rs : list Request) (w : World) : World :=
  mkWorld (clock_reads w) (requests w ++ rs) (sleeps w) (stdout w) (logged w).

(** World after the log records [records] were emitted. *)
Definition logging (records : list (LogLevel * string)) (w : World) : World :=
  mkWorld (clock_reads w) (requests w) (sleeps w) (stdout w) (logged w ++ records).

(** An exchange counts as a non-error response when [raise_for_status]
    passed. *)
Definition exchange_ok (ex : Exchange) : bool :=
  match ex with
  | Responded _ _ _ => true
  | _ => false
  end.

(** What a failed exchange leaves in the [last_error_*] variables. *)
Definition error_of (ex : Exchange) : Z * string * Headers :=
  let '(_, status, response_text, response_headers) := try_result ex in
  (status, response_text, response_headers).

(** The status code of the response of an exchange, [0] when no response
    arrived. *)
Definition http_status (ex : Exchange) : Z :=
  match ex with
  | Responded status _ _ => status
  | RaisedResponseError status _ _ => status
  | RaisedOther _ => 0
  end.

(** The error a failed exchange is reported with after the sentence
    that names the store: the status code when a response arrived with
    a positive one, the text of the exception when none arrived. *)
Definition failure_report (ex : Exchange) : string :=
  match ex with
  | Responded _ _ _ => ""
  | RaisedResponseError status _ _ =>
      if 0 <? status then "HTTP " ++ PyStr.str_int status else ""
  | RaisedOther e => e
  end.


(** The request an entry of [attempts] turns into. *)
Definition attempt_request (url : string) (headers : Headers)
    (a : string * option Json * string) : Request :=
  mkRequest (request_method a.1.1) url headers a.1.2.

(** The five request variants, written out in the order of the
    specification: POST without body, POST of the empty object, POST of
    an object with an empty [items] array, PUT without body, PUT of the
    empty object. *)
Definition variant_requests (base_url api_key : string) (store_id : option string)
  : list Request :=
  let url := refresh_url base_url store_id in
  let headers := get_headers api_key in
  [ mkRequest HttpPost url headers None;
    mkRequest HttpPost url headers (Some (JObject []));
    mkRequest HttpPost url headers (Some (JObject [("items", JArray [])]));
    mkRequest HttpPut url headers None;
    mkRequest HttpPut url headers (Some (JObject [])) ].

Definition no_request : Request := mkRequest HttpGet "" [] None.

(** The exchange the [j]-th request of [reqs] meets when the first of
    them goes out in world [w]. *)
Definition exchange_at (env : Env) (w : World) (reqs : list Request) (j : nat)
  : Exchange :=
  env_refresh env (length (requests w) + j) (nth j reqs no_request).

Definition variant_exchange (env : Env) (base_url api_key : string)
    (store_id : option string) (w : World) (j : nat) : Exchange :=
  exchange_at env w (variant_requests base_url api_key store_id) j.

Definition variant_ok (env : Env) (base_url api_key : string)
    (store_id : option string) (w : World) (j : nat) : bool :=
  exchange_ok (variant_exchange env base_url api_key store_id w j).

(** The [last_error_*] variables after the first [k] attempts of [todo]
    failed. *)
Definition last_error_after (env : Env) (url : string) (headers : Headers)
    (w : World) (todo : list (string * option Json * string))
    (init : Z * string * Headers) (k : nat) : Z * string * Headers :=
  match k with
  | O => init
  | S k' => error_of (exchange_at env w (map (attempt_request url headers) todo) k')
  end.

(** [elapsed > MAX_REFRESH_TIMEOUT] at clock reading [now]. *)
Definition timed_out (cfg : Config) (m : RefreshMonitor) (now : Q) : bool :=
  PyFloat.Qltb (inject_Z (MAX_REFRESH_TIMEOUT cfg)) (now - start_time m)%Q.

(** What [fetch_document_store_status] returns for an exchange. *)
Definition fetch_result (ex : StoreExchange) : option DocumentStore :=
  match ex with
  | Fetched data => data
  | FetchRaised _ => None
  end.

(** The monitor after the bookkeeping of a successful fetch of [d]. *)
Definition polled (d : DocumentStore) (m : RefreshMonitor) : RefreshMonitor :=
  record_poll (PyStr.upper (get (ds_status d) "UNKNOWN"))
              (get (ds_totalChunks d) 0) m.

(** One poll cycle seen as a transition of the monitor alone, given the
    clock reading and what the fetch (if any) returns. *)
Definition transition (cfg : Config) (now : Q) (answer : option DocumentStore)
    (m : RefreshMonitor) : LoopCtl * RefreshMonitor :=
  if timed_out cfg m now then
    (Break,
     fail_with ("Timeout after " ++ format_elapsed_time (now - start_time m)%Q) m)
  else
    match answer with
    | None => (Continue, m)
    | Some d =>
        match store_bucket d with
        | Refreshable =>
            (Break,
             complete_with (PyStr.upper (get (ds_status d) "UNKNOWN")) (polled d m))
        | _ => (Continue, polled d m)
        end
    end.

(** The answer the status fetch of cycle [j] gets, for a loop entered in
    world [w] whose earlier cycles each sent one request. *)
Definition answer_in (env : Env) (base_url api_key : string)
    (m : RefreshMonitor) (w : World) (j : nat) : option DocumentStore :=
  fetch_result (env_store env (length (requests w) + j)
                  (status_request base_url api_key (store_id m))).

(** [elapsed] as computed at the start of cycle [j] of that loop. *)
Definition elapsed_in (env : Env) (m : RefreshMonitor) (w : World) (j : nat) : Q :=
  (env_time env (clock_reads w + j) - start_time m)%Q.

(** Cycle [j] neither times out nor sees a refreshable status. *)
Definition keeps_polling (env : Env) (cfg : Config) (base_url api_key : string)
    (m : RefreshMonitor) (w : World) (j : nat) : Prop :=
  timed_out cfg m (env_time env (clock_reads w + j)) = false /\
  match answer_in env base_url api_key m w j with
  | None => True
  | Some d => store_bucket d <> Refreshable
  end.

(** World after the four lines [monitor_refresh_progress] prints before
    it enters the loop. *)
Definition header (m : RefreshMonitor) (w : World) : World :=
  mkWorld (clock_reads w) (requests w) (sleeps w)
    (stdout w ++ [ PyStr.nl ++ rule60;
                   "Started refresh for: " ++ store_name m;
                   "   Initial chunks: " ++ PyStr.fmt_commas (initial_chunks m);
                   rule60 ])
    (logged w).

(** The baseline the next delta is taken against: the chunk count of the
    last successful poll, if there was one. *)
Definition baseline (m : RefreshMonitor) : option Z :=
  if 1 <? iteration_count m + 1 then Some (last_chunks m) else None.

(** Deltas of a sequence of chunk counts against a baseline, each count
    becoming the baseline of the next; without a baseline the delta is
    reported as [0]. *)
Fixpoint deltas_since (prev : option Z) (chunks : list Z) : list Z :=
  match chunks with
  | [] => []
  | c :: rest =>
      match prev with
      | None => 0
      | Some p => c - p
      end :: deltas_since (Some c) rest
  end.

(** Instrumentation of [monitor_loop]: for each poll of the run whose
    fetch returned a store, in order, the chunk count it read and the
    [chunks_delta] it computed. *)
Fixpoint poll_log (env : Env) (cfg : Config) (fuel : nat) (base_url api_key : string)
    (m : RefreshMonitor) (w : World) : list (Z * Z) :=
  match fuel with
  | O => []
  | S fuel' =>
      let now := env_time env (clock_reads w) in
      let seen :=
        if timed_out cfg m now then []
        else match answer_in env base_url api_key m w 0 with
             | Some d => [(get (ds_totalChunks d) 0, poll_delta m d)]
             | None => []
             end in
      let r := poll_cycle env cfg base_url api_key m w in
      (seen ++ match r.1.1 with
               | Break => []
               | Continue => poll_log env cfg fuel' base_url api_key r.1.2 r.2
               end)%list
  end.

(** Monitors that [display_summary] counts as failed, and as successful. *)
Definition failed_count (monitors : list RefreshMonitor) : Z :=
  Z.of_nat (length (List.filter (fun m => PyStr.truthy (error m)) monitors)).

Definition successful_count (monitors : list RefreshMonitor) : Z :=
  Z.of_nat (length (List.filter (fun m => negb (PyStr.truthy (error m))) monitors)).

(** ** Sample remotes *)

Module Samples.

Definition docs (status : string) (chunks : Z) : DocumentStore :=
  mkStore (Some "id1") (Some "Docs") (Some status) (Some chunks) None.

(** The clock advances by fifteen seconds from one reading to the next. *)
Definition clock15 (k : nat) : Q := inject_Z (15 * Z.of_nat k).

(** Every POST is rejected with 404, every PUT is accepted; the store is
    UPSERTED at once. *)
Definition env_put_only : Env :=
  mkEnv clock15
    (fun _ r => match req_verb r with
                | HttpPut => Responded 200 "ok" []
                | _ => RaisedResponseError 404 "Not Found" []
                end)
    (fun _ _ => Fetched (Some (docs "UPSERTED" 1234))).

(** Every refresh request is answered 502 Bad Gateway. *)
Definition env_502 : Env :=
  mkEnv clock15
    (fun _ _ => RaisedResponseError 502 "Bad Gateway" [])
    (fun _ _ => FetchRaised "unreachable").

(** Every refresh request is answered 500, the body naming the request
    number. *)
Definition env_500 : Env :=
  mkEnv clock15
    (fun k _ => RaisedResponseError 500
                  ("error " ++ PyStr.str_int (Z.of_nat k)) [])
    (fun _ _ => FetchRaised "unreachable").

(** The first refresh request is accepted; the store is always syncing;
    the clock advances by half a time unit per reading. *)
Definition env_busy : Env :=
  mkEnv (fun k => (Z.of_nat k # 2)%Q)
    (fun _ _ => Responded 200 "ok" [])
    (fun _ _ => Fetched (Some (docs "syncing" 7))).

(** Timeout of one time unit. *)
Definition cfg_unit : Config := mkConfig 1 1.

(** The first refresh request is accepted (request 0); the status
    fetches that follow report a busy store with chunk counts 100, 140,
    140, 200. *)
Definition env_chunks : Env :=
  mkEnv clock15
    (fun _ _ => Responded 200 "ok" [])
    (fun k _ => Fetched (Some (docs "upserting" (nth (k - 1) [100; 140; 140; 200] 0)))).

(** Same counts, but the fetches numbered 1, 3, 4 and 7 fail. *)
Definition env_chunks_gaps : Env :=
  mkEnv clock15
    (fun _ _ => Responded 200 "ok" [])
    (fun k _ => match k with
                | 2%nat => Fetched (Some (docs "upserting" 100))
                | 5%nat => Fetched (Some (docs "upserting" 140))
                | 6%nat => Fetched (Some (docs "upserting" 140))
                | 8%nat => Fetched (Some (docs "upserting" 200))
                | 4%nat => Fetched None
                | _ => FetchRaised "connection reset"
                end).

(** The status fetch fails once, then reports a busy store, then an
    upserted one. *)
Definition env_flaky : Env :=
  mkEnv clock15
    (fun _ _ => Responded 200 "ok" [])
    (fun k _ => match k with
                | 1%nat => FetchRaised "connection reset"
                | 2%nat => Fetched (Some (docs "SYNCING" 10))
                | _ => Fetched (Some (docs "Upserted" 1234))
                end).

(** A monitor as [new_monitor] makes it at time zero. *)
Definition monitor0 : RefreshMonitor :=
  mkMonitor (docs "UPSERTED" 90) (Some "id1") "Docs" 0%Q "STARTING"
    false None None 0 0 90.

End Samples.

Module SampleWorlds.

(** The world once the monitor was made and the first refresh request
    was accepted: one clock reading, one request. *)
Definition triggered : World :=
  mkWorld 1 [mkRequest HttpPost "http://h/api/v1/document-store/refresh/id1"
               (get_headers "KEY") None] [] [] [].

End SampleWorlds.

(** ** More of [str] *)

Module PyText.

(** [c.lower()] for one ASCII character. *)
Definition lower_ascii (c : ascii) : ascii :=
  let n := nat_of_ascii c in
  if (Nat.leb 65 n && Nat.leb n 90)%bool then ascii_of_nat (n + 32) else c.

(** [s.lower()]. *)
Fixpoint lower (s : string) : string :=
  match s with
  | EmptyString => EmptyString
  | String c rest => String (lower_ascii c) (lower rest)
  end.

(** [c.isspace()] on ASCII: tab, line feed, vertical tab, form feed,
    carriage return, the four separators 28 to 31, and the space. *)
Definition is_space (c : ascii) : bool :=
  let n := nat_of_ascii c in
  ((Nat.leb 9 n && Nat.leb n 13) || (Nat.leb 28 n && Nat.leb n 32))%bool.

(** [s.lstrip()]. *)
Fixpoint lstrip (s : string) : string :=
  match s with
  | EmptyString => EmptyString
  | String c rest => if is_space c then lstrip rest else s
  end.

(** Removes from the end the characters that satisfy [drop]. *)
Fixpoint rstrip_with (drop : ascii -> bool) (s : string) : string :=
  match s with
  | EmptyString => EmptyString
  | String c rest =>
      match rstrip_with drop rest with
      | EmptyString => if drop c then EmptyString else String c EmptyString
      | kept => String c kept
      end
  end.

(** [s.rstrip()] and [s.strip()]. *)
Definition rstrip (s : string) : string := rstrip_with is_space s.

Definition strip (s : string) : string := rstrip (lstrip s).

(** [s.rstrip("/")]. *)
Definition rstrip_slash (s : string) : string :=
  rstrip_with (fun c => Ascii.eqb c "/") s.

(** [s.startswith(p)]. *)
Definition startswith (s p : string) : bool := String.prefix p s.

(** [needle in hay] for two strings. *)
Fixpoint contains (needle hay : string) : bool :=
  (String.prefix needle hay ||
   match hay with
   | EmptyString => false
   | String _ rest => contains needle rest
   end)%bool.

(** [sep in s] for a one-character [sep]. *)
Fixpoint has_char (sep : ascii) (s : string) : bool :=
  match s with
  | EmptyString => false
  | String c rest => (Ascii.eqb c sep || has_char sep rest)%bool
  end.

(** [s.split(sep)] for a one-character [sep]: the pieces between the
    separators, empty pieces included, at least one piece. *)
Fixpoint split (sep : ascii) (s : string) : list string :=
  match s with
  | EmptyString => [EmptyString]
  | String c rest =>
      if Ascii.eqb c sep then EmptyString :: split sep rest
      else match split sep rest with
           | piece :: pieces => String c piece :: pieces
           | [] => [String c EmptyString]
           end
  end.

(** [s.split(sep, 1)] for an [s] that contains [sep]: what stands
    before and after its first occurrence. *)
Fixpoint split_once (sep : ascii) (s : string) : string * string :=
  match s with
  | EmptyString => (EmptyString, EmptyString)
  | String c rest =>
      if Ascii.eqb c sep then (EmptyString, rest)
      else let '(before, after) := split_once sep rest in (String c before, after)
  end.

(** [s[:n]]. *)
Fixpoint slice_to (n : nat) (s : string) : string :=
  match n, s with
  | S k, String c rest => String c (slice_to k rest)
  | _, _ => EmptyString
  end.

Definition is_digit (c : ascii) : bool :=
  let n := nat_of_ascii c in (Nat.leb 48 n && Nat.leb n 57)%bool.

Definition digit_value (c : ascii) : Z := Z.of_nat (nat_of_ascii c - 48).

(** The digits of a decimal literal, single underscores allowed between
    two digits; [after_digit] tells whether the previous character was a
    digit. *)
Fixpoint digits (acc : Z) (after_digit : bool) (s : string) : option Z :=
  match s with
  | EmptyString => if after_digit then Some acc else None
  | String c rest =>
      if is_digit c then digits (10 * acc + digit_value c) true rest
      else if (Ascii.eqb c "_" && after_digit)%bool then digits acc false rest
      else None
  end.

(** [int(s)] on ASCII text, [None] for [ValueError]: surrounding white
    space, one optional sign, then decimal digits. *)
Definition int (s : string) : option Z :=
  match strip s with
  | String "+" body => digits 0 false body
  | String "-" body => Z.opp <$> digits 0 false body
  | body => digits 0 false body
  end.

End PyText.

(** ** parse_user_selection *)

(** One turn of the [for] loop over the parts: the set of selected numbers
    after it. *)
Definition select_part (max_index : Z) (selected : gset Z) (part : string)
  : M (gset Z) :=
  let part := PyText.strip part in
  if PyText.has_char "-" part then
    let '(start, end_) := PyText.split_once "-" part in
    match PyText.int (PyText.strip start) with
    | None => print ("Invalid range format: " ++ part);; mret selected
    | Some start =>
        match PyText.int (PyText.strip end_) with
        | None => print ("Invalid range format: " ++ part);; mret selected
        | Some end_ =>
            if ((start <? 1) || (max_index <? end_) || (end_ <? start))%bool then
              print ("Invalid range: " ++ part);; mret selected
            else mret (selected ∪ list_to_set (seqZ start (end_ + 1 - start)))
        end
    end
  else
    match PyText.int part with
    | None => print ("Invalid input: " ++ part);; mret selected
    | Some num =>
        if ((1 <=? num) && (num <=? max_index))%bool then mret (selected ∪ {[ num ]})
        else print ("Invalid selection: " ++ PyStr.str_int num);; mret selected
    end.

Fixpoint select_parts (max_index : Z) (selected : gset Z) (parts : list string)
  : M (gset Z) :=
  match parts with
  | [] => mret selected
  | part :: rest =>
      selected ← select_part max_index selected part;
      select_parts max_index selected rest
  end.

(** [sorted(list(selected))]. *)
Definition sorted_list (selected : gset Z) : list Z :=
  merge_sort Z.le (elements selected).

Definition parse_user_selection (user_input : string) (max_index : Z)
  : M (list Z) :=
  let user_input := PyText.lower (PyText.strip user_input) in
  if String.eqb user_input "all" then mret (seqZ 1 max_index)
  else
    selected ← select_parts max_index ∅ (PyText.split "," user_input);
    mret (sorted_list selected).

(** [l[i]] with Python's negative indices, [None] for [IndexError]. *)
Definition getitem {A} (l : list A) (i : Z) : option A :=
  if 0 <=? i then l !! Z.to_nat i
  else if - Z.of_nat (length l) <=? i then l !! Z.to_nat (Z.of_nat (length l) + i)
  else None.

(** [[stores[idx - 1] for idx in selected_indices]] of
    [prompt_user_selection], [None] when an index raises. *)
Definition selected_stores {A} (stores : list A) (selected_indices : list Z)
  : option (list A) :=
  mapM (fun idx => getitem stores (idx - 1)) selected_indices.

(** ** flowise_document_refresher_auto.py *)

#[global] Instance DocumentStore_eq_dec : EqDecision DocumentStore.
Proof. solve_decision. Defined.

(** [find_stores_by_criteria] reads two keys of a store and compares
    stores with [==]; it is written here for any type of store records
    with decidable equality and the two lookups. *)
Section Criteria.

Context {A : Type} `{EqDecision A}.
Variables (get_id get_name : A -> option string).

(** [store.get("id", "").startswith(store_id) or store.get("id") == store_id]. *)
Definition id_matches (store_id : string) (store : A) : bool :=
  (PyText.startswith (get (get_id store) "") store_id
   || bool_decide (get_id store = Some store_id))%bool.

(** [store_name.lower() in store.get("name", "").lower()]. *)
Definition name_matches (store_name : string) (store : A) : bool :=
  PyText.contains (PyText.lower store_name)
                  (PyText.lower (get (get_name store) "")).

(** The inner [for store in all_stores] loop for one criterion. *)
Definition add_matching (matches : A -> bool) (all_stores : list A)
    (matching_stores : list A) : list A :=
  fold_left
    (fun (matching_stores : list A) store =>
       if matches store then
         if bool_decide (store ∈ matching_stores) then matching_stores
         else (matching_stores ++ [store])%list
       else matching_stores)
    all_stores matching_stores.

(** The outer loop over the criteria of one kind; [None] and the empty
    list are both falsy, so the loop is skipped. *)
Definition add_criteria (matches : string -> A -> bool) (all_stores : list A)
    (criteria : option (list string)) (matching_stores : list A) : list A :=
  match criteria with
  | None | Some [] => matching_stores
  | Some criteria =>
      fold_left (fun matching_stores c => add_matching (matches c) all_stores matching_stores)
                criteria matching_stores
  end.

Definition find_stores_by_criteria (all_stores : list A)
    (store_ids store_names : option (list string)) (all_stores_flag : bool)
  : list A :=
  if all_stores_flag then all_stores
  else
    let matching_stores := [] in
    let matching_stores := add_criteria id_matches all_stores store_ids matching_stores in
    let matching_stores := add_criteria name_matches all_stores store_names matching_stores in
    matching_stores.

End Criteria.

(** The loop of [main] that sorts the target stores into those to refresh
    and those to skip, the latter with their upper-cased status. *)
Definition split_targets (target_stores : list DocumentStore)
  : list DocumentStore * list (DocumentStore * string) :=
  fold_left
    (fun '(refreshable_stores, skipped_stores) store =>
       let status := PyStr.upper (get (ds_status store) "UNKNOWN") in
       if bool_decide (status ∈ REFRESHABLE_STATUSES) then
         ((refreshable_stores ++ [store])%list, skipped_stores)
       else (refreshable_stores, (skipped_stores ++ [(store, status)])%list))
    target_stores ([], []).

(** ** flowise_utils.load_configuration *)

(** A call either returns or leaves through [sys.exit]. *)
Inductive Outcome (A : Type) :=
| Returned (a : A)
| SystemExit (code : Z).

Arguments Returned {A} a.
Arguments SystemExit {A} code.

(** [load_configuration], given what [os.getenv] answers for the two
    variables once [load_dotenv] has run. *)
Definition load_configuration (FLOWISE_BASE_URL FLOWISE_API_KEY : option string)
  : M (Outcome (string * string)) :=
  let base_url := FLOWISE_BASE_URL in
  let api_key := FLOWISE_API_KEY in
  if negb (PyStr.truthy base_url) then
    log ERROR "Error: FLOWISE_BASE_URL environment variable is not set";;
    log ERROR "Please set it in your .env file or environment";;
    mret (SystemExit 1)
  else if negb (PyStr.truthy api_key) then
    log ERROR "Error: FLOWISE_API_KEY environment variable is not set";;
    log ERROR "Please set it in your .env file or environment";;
    mret (SystemExit 1)
  else
    let base_url := PyText.rstrip_slash (get base_url "") in
    mret (Returned (base_url, get api_key "")).

Module MoreSamples.

(** The first refresh request is accepted; the store then reports STALE,
    an unheard-of status, and no status at all, in turn. *)
Definition env_stale : Env :=
  mkEnv Samples.clock15
    (fun _ _ => Responded 200 "ok" [])
    (fun k _ => match k with
                | 1%nat => Fetched (Some (Samples.docs "stale" 5))
                | 2%nat => Fetched (Some (Samples.docs "EMPTY" 5))
                | _ => Fetched (Some (mkStore (Some "id1") None None None None))
                end).

(** Two monitors as [refresh_and_monitor] returns them: one completed,
    one whose trigger failed. *)
Definition done : RefreshMonitor :=
  mkMonitor (Samples.docs "UPSERTED" 90) (Some "id1") "Docs" 0%Q "UPSERTED"
    true None (Some "UPSERTED") 2 1234 90.

Definition untriggered : RefreshMonitor :=
  fail_with "Failed to trigger refresh" Samples.monitor0.

End MoreSamples.

Module Offline.

(** No request gets through: every exchange dies with a connection
    error. *)
Definition env_offline : Env :=
  mkEnv Samples.clock15
    (fun _ _ => RaisedOther "Cannot connect to host")
    (fun _ _ => FetchRaised "Cannot connect to host").

End Offline.

(** The numbers one comma-separated part selects by itself. *)
Definition part_numbers (max_index : Z) (part : string) : gset Z :=
  (select_part max_index ∅ part world0).1.

(** Two worlds that differ at most in what was printed. *)
Definition only_printed (w w' : World) : Prop :=
  clock_reads w' = clock_reads w /\ requests w' = requests w /\
  sleeps w' = sleeps w /\ logged w' = logged w.

(** The closing line of [display_summary] for given monitors. *)
Definition total_line (monitors : list RefreshMonitor) : string :=
  "Total: " ++ PyStr.str_int (Z.of_nat (length monitors))
    ++ " | Successful: " ++ PyStr.str_int (successful_count monitors)
    ++ " | Failed: " ++ PyStr.str_int (failed_count monitors).

(** Its three heading lines. *)
Definition summary_heading : list string :=
  [ PyStr.nl ++ PyStr.repeat_str "=" 80; "Refresh Summary"; PyStr.repeat_str "=" 80 ].

(** * Proofs *)

(** ** Status buckets *)

Lemma in_refreshable (u : string) : u ∈ REFRESHABLE_STATUSES <-> u = "UPSERTED".
Proof. unfold REFRESHABLE_STATUSES. apply elem_of_singleton. Qed.

Lemma in_busy (u : string) :
  u ∈ BUSY_STATUSES <-> u = "SYNCING" \/ u = "UPSERTING".
Proof.
  unfold BUSY_STATUSES. rewrite elem_of_union, !elem_of_singleton. reflexivity.
Qed.

Lemma in_waiting (u : string) : u ∈ WAITING_STATUSES <-> u = "STALE".
Proof. unfold WAITING_STATUSES. apply elem_of_singleton. Qed.

(** The three sets are disjoint, so the chain picks the one set the
    status is in, whatever the order of the tests. *)
Lemma bucket_of_upper_cases (u : string) :
  (u = "UPSERTED" /\ bucket_of_upper u = Refreshable) \/
  ((u = "SYNCING" \/ u = "UPSERTING") /\ bucket_of_upper u = Busy) \/
  (u = "STALE" /\ bucket_of_upper u = Waiting) \/
  ((u <> "UPSERTED" /\ u <> "SYNCING" /\ u <> "UPSERTING" /\ u <> "STALE")
   /\ bucket_of_upper u = Unknown).
Proof.
  unfold bucket_of_upper.
  destruct (decide (u ∈ REFRESHABLE_STATUSES)) as [Hr | Hr];
    [rewrite bool_decide_eq_true_2 by exact Hr
    | rewrite bool_decide_eq_false_2 by exact Hr];
    rewrite in_refreshable in Hr; [tauto |].
  destruct (decide (u ∈ BUSY_STATUSES)) as [Hb | Hb];
    [rewrite bool_decide_eq_true_2 by exact Hb
    | rewrite bool_decide_eq_false_2 by exact Hb];
    rewrite in_busy in Hb; [tauto |].
  destruct (decide (u ∈ WAITING_STATUSES)) as [Hw | Hw];
    [rewrite bool_decide_eq_true_2 by exact Hw
    | rewrite bool_decide_eq_false_2 by exact Hw];
    rewrite in_waiting in Hw; tauto.
Qed.

Lemma classify_refreshable (s : string) :
  classify s = Refreshable <-> PyStr.upper s = "UPSERTED".
Proof.
  unfold classify.
  destruct (bucket_of_upper_cases (PyStr.upper s))
    as [[Hu Hb] | [[Hu Hb] | [[Hu Hb] | [Hu Hb]]]]; rewrite Hb.
  - tauto.
  - split; [discriminate | destruct Hu; congruence].
  - split; [discriminate | congruence].
  - split; [discriminate | tauto].
Qed.

Lemma filter_step_spec acc s :
  filter_step acc s = (acc ++ filter (fun x => store_bucket x = Refreshable) [s])%list.
Proof.
  unfold filter_step, store_bucket, classify.
  rewrite filter_cons, filter_nil.
  destruct (bucket_of_upper_cases (PyStr.upper (get (ds_status s) "UNKNOWN")))
    as [[Hu Hb] | [[Hu Hb] | [[Hu Hb] | [Hu Hb]]]]; rewrite Hb.
  - rewrite Hu. reflexivity.
  - destruct Hu as [-> | ->]; rewrite app_nil_r; reflexivity.
  - rewrite Hu. rewrite app_nil_r; reflexivity.
  - destruct Hu as (H1 & H2 & H3 & H4).
    rewrite !bool_decide_eq_false_2, decide_False, app_nil_r;
      rewrite ?in_refreshable, ?in_busy, ?in_waiting; (tauto || discriminate).
Qed.

Lemma fold_filter_step stores : forall acc,
  fold_left filter_step stores acc =
    (acc ++ filter (fun x => store_bucket x = Refreshable) stores)%list.
Proof.
  induction stores as [| s rest IH]; intros acc.
  - cbn. by rewrite app_nil_r.
  - cbn [fold_left]. rewrite IH, filter_step_spec, <- app_assoc.
    f_equal. rewrite (filter_cons _ s rest), filter_cons, filter_nil.
    destruct (decide (store_bucket s = Refreshable)); reflexivity.
Qed.

(** ** World bookkeeping *)

Lemma sent_nil w : sent [] w = w.
Proof. destruct w; unfold sent; simpl. by rewrite app_nil_r. Qed.

Lemma sent_sent rs1 rs2 w : sent rs2 (sent rs1 w) = sent (rs1 ++ rs2) w.
Proof. unfold sent; simpl. by rewrite app_assoc. Qed.

Lemma logging_nil w : logging [] w = w.
Proof. destruct w; unfold logging; simpl. by rewrite app_nil_r. Qed.

Lemma logging_logging r1 r2 w : logging r2 (logging r1 w) = logging (r1 ++ r2) w.
Proof. unfold logging; simpl. by rewrite app_assoc. Qed.

Lemma log_all_spec records : forall w, log_all records w = (tt, logging records w).
Proof.
  induction records as [| [level msg] rest IH]; intros w.
  - simpl. unfold mret, M_ret. by rewrite logging_nil.
  - cbn [log_all]. unfold mbind, M_bind.
    change (log level msg w) with (tt, logging [(level, msg)] w).
    cbv beta iota. rewrite IH, logging_logging. reflexivity.
Qed.

Ltac run_world :=
  unfold mbind, M_bind, mret, M_ret, print, log, asyncio_sleep;
  cbn [fst snd clock_reads requests sleeps stdout logged].

(** ** The attempt loop *)

Section TriggerFacts.

Variable env : Env.
Variables (url : string) (headers : Headers).

#[local] Abbreviation reqs_of := (map (attempt_request url headers)).

Lemma exchange_at_shift w r rest j :
  exchange_at env (sent [r] w) rest j = exchange_at env w (r :: rest) (S j).
Proof.
  unfold exchange_at, sent; simpl. rewrite length_app; simpl.
  f_equal. lia.
Qed.

(** One turn of the [for] loop. *)
Lemma attempt_loop_cons a rest st msg hs w :
  attempt_loop env url headers (a :: rest) st msg hs w =
    let ex := exchange_at env w (reqs_of (a :: rest)) 0 in
    if exchange_ok ex then (ReturnedTrue, sent [attempt_request url headers a] w)
    else
      let '(st', msg', hs') := error_of ex in
      attempt_loop env url headers rest st' msg' hs'
        (sent [attempt_request url headers a] w).
Proof.
  destruct a as [[method payload] description].
  unfold exchange_at, error_of, attempt_request; simpl.
  unfold mbind, M_bind, _try_refresh_request, mbind, M_bind, send_refresh,
    mret, M_ret, sent.
  rewrite Nat.add_0_r.
  destruct (env_refresh env _ _) as [s t h | s t h | e]; reflexivity.
Qed.

(** The loop returns at the first attempt that succeeds. *)
Lemma attempt_loop_first_ok todo : forall k st msg hs w,
  (k < length todo)%nat ->
  (forall j, (j < k)%nat -> exchange_ok (exchange_at env w (reqs_of todo) j) = false) ->
  exchange_ok (exchange_at env w (reqs_of todo) k) = true ->
  attempt_loop env url headers todo st msg hs w =
    (ReturnedTrue, sent (take (S k) (reqs_of todo)) w).
Proof.
  induction todo as [| a rest IH]; intros k st msg hs w Hk Hfail Hok.
  - simpl in Hk. lia.
  - rewrite attempt_loop_cons. cbv zeta.
    destruct k as [| k].
    + rewrite Hok. reflexivity.
    + rewrite (Hfail 0%nat) by lia.
      destruct (error_of _) as [[st' msg'] hs'].
      rewrite (IH k).
      * rewrite sent_sent. reflexivity.
      * simpl in Hk. lia.
      * intros j Hj. rewrite exchange_at_shift. apply Hfail. lia.
      * rewrite exchange_at_shift. exact Hok.
Qed.

(** After [k] failed attempts the loop goes on with the rest of the
    list, the error of the last failure at hand. *)
Lemma attempt_loop_fail_prefix todo : forall k st msg hs w,
  (k <= length todo)%nat ->
  (forall j, (j < k)%nat -> exchange_ok (exchange_at env w (reqs_of todo) j) = false) ->
  attempt_loop env url headers todo st msg hs w =
    let '(st', msg', hs') :=
      last_error_after env url headers w todo (st, msg, hs) k in
    attempt_loop env url headers (drop k todo) st' msg' hs'
      (sent (take k (reqs_of todo)) w).
Proof.
  induction todo as [| a rest IH]; intros k st msg hs w Hk Hfail.
  - simpl in Hk. assert (k = 0%nat) as -> by lia. simpl. by rewrite sent_nil.
  - destruct k as [| k].
    + simpl. by rewrite sent_nil.
    + rewrite attempt_loop_cons. cbv zeta.
      rewrite (Hfail 0%nat) by lia.
      destruct (error_of _) as [[st' msg'] hs'] eqn:E0.
      rewrite (IH k).
      * destruct k as [| k]; cbn [last_error_after drop take map].
        -- cbn [map] in E0. rewrite E0, sent_sent. reflexivity.
        -- rewrite exchange_at_shift.
           destruct (error_of _) as [[st2 msg2] hs2].
           rewrite sent_sent. reflexivity.
      * simpl in Hk. lia.
      * intros j Hj. rewrite exchange_at_shift. apply Hfail. lia.
Qed.

End TriggerFacts.

(** Among the first [n] attempts either all fail or there is a first one
    that succeeds. *)
Lemma first_ok_or_none (ok : nat -> bool) (n : nat) :
  (forall j, (j < n)%nat -> ok j = false) \/
  (exists k, (k < n)%nat /\ ok k = true /\ forall j, (j < k)%nat -> ok j = false).
Proof.
  induction n as [| n [IH | (k & Hk & Hok & Hlt)]].
  - left. intros j Hj. lia.
  - destruct (ok n) eqn:En.
    + right. exists n. split; [lia | split; [exact En | exact IH]].
    + left. intros j Hj. destruct (decide (j = n)) as [-> | Hne]; [exact En |].
      apply IH. lia.
  - right. exists k. split; [lia | split; assumption].
Qed.

(** ** trigger_refresh *)

Section TriggerRefresh.

Variable env : Env.
Variables (base_url api_key : string) (store_id : option string).

#[local] Abbreviation vs := (variant_requests base_url api_key store_id).
#[local] Abbreviation ok := (variant_ok env base_url api_key store_id).
#[local] Abbreviation trigger := (trigger_refresh env base_url api_key store_id).

(** The source list of attempts is the list of variants. *)
Lemma attempts_requests :
  map (attempt_request (refresh_url base_url store_id) (get_headers api_key))
      attempts = vs.
Proof. reflexivity. Qed.

Lemma variant_requests_NoDup : NoDup vs.
Proof.
  unfold variant_requests.
  repeat (apply NoDup_cons; split;
          [rewrite ?elem_of_cons, elem_of_nil; intuition discriminate |]).
  apply NoDup_nil; exact I.
Qed.

Lemma trigger_refresh_returns_true w k :
  (k < 5)%nat ->
  (forall j, (j < k)%nat -> ok w j = false) ->
  ok w k = true ->
  trigger w = (true, sent (take (S k) vs) w).
Proof.
  intros Hk Hfail Hok. unfold trigger_refresh, mbind, M_bind.
  rewrite (attempt_loop_first_ok env _ _ attempts k); try assumption.
  reflexivity.
Qed.

Lemma trigger_refresh_exhausted w :
  (forall j, (j < 5)%nat -> ok w j = false) ->
  trigger w =
    let '(status, msg, _) :=
      error_of (variant_exchange env base_url api_key store_id w 4) in
    (false,
     logging ((ERROR, error_line store_id status msg)
                :: (if status =? 500 then hints else []))
             (sent vs w)).
Proof.
  intros Hfail. unfold trigger_refresh, mbind, M_bind.
  rewrite (attempt_loop_fail_prefix env _ _ attempts 5);
    [| simpl; lia | exact Hfail].
  cbn [last_error_after]. rewrite attempts_requests.
  change (exchange_at env w vs 4)
    with (variant_exchange env base_url api_key store_id w 4).
  destruct (error_of _) as [[status msg] hs].
  unfold attempts, variant_requests. cbn [drop take attempt_loop].
  unfold mret, M_ret, mbind, M_bind.
  match goal with
  | |- context [log ERROR ?m ?w0] =>
      change (log ERROR m w0) with (tt, logging [(ERROR, m)] w0)
  end.
  cbv beta iota.
  destruct (status =? 500).
  - rewrite log_all_spec, logging_logging. reflexivity.
  - reflexivity.
Qed.

(** The two ways [trigger_refresh] ends. *)
Lemma trigger_refresh_cases w :
  (exists j, (j < 5)%nat /\ ok w j = true /\
             (forall i, (i < j)%nat -> ok w i = false) /\
             trigger w = (true, sent (take (S j) vs) w)) \/
  ((forall j, (j < 5)%nat -> ok w j = false) /\
   (trigger w).1 = false /\
   trigger w =
     let '(status, msg, _) :=
       error_of (variant_exchange env base_url api_key store_id w 4) in
     (false,
      logging ((ERROR, error_line store_id status msg)
                 :: (if status =? 500 then hints else []))
              (sent vs w))).
Proof.
  destruct (first_ok_or_none (ok w) 5) as [Hall | (j & Hj & Hok & Hlt)].
  - right. split; [exact Hall |].
    pose proof (trigger_refresh_exhausted w Hall) as E.
    split; [| exact E]. rewrite E.
    destruct (error_of _) as [[status msg] hs]. reflexivity.
  - left. exists j. repeat split; try assumption.
    apply trigger_refresh_returns_true; assumption.
Qed.

(** The trigger touches neither the clock, nor the sleeps, nor the
    standard output, and sends a prefix of the variants. *)
Lemma trigger_refresh_frame w :
  clock_reads (trigger w).2 = clock_reads w /\
  sleeps (trigger w).2 = sleeps w /\
  stdout (trigger w).2 = stdout w /\
  exists n, (n <= 5)%nat /\ requests (trigger w).2 = (requests w ++ take n vs)%list /\
            ((trigger w).1 = false -> n = 5%nat).
Proof.
  destruct (trigger_refresh_cases w) as [(j & Hj & _ & _ & E) | (_ & _ & E)];
    rewrite E.
  - repeat split; try reflexivity.
    exists (S j). split; [lia |]. split; [reflexivity |]. discriminate.
  - destruct (error_of _) as [[status msg] hs].
    repeat split; try reflexivity.
    exists 5%nat. split; [lia |]. split; reflexivity.
Qed.

End TriggerRefresh.

(** The hints follow the error line exactly for status 500. *)
Lemma hints_follow_iff_500 (before : list (LogLevel * string)) (line : string)
    (status : Z) :
  (forall h, h ∈ hints ->
     h ∈ drop (length before)
           (before ++ (ERROR, line) :: (if status =? 500 then hints else []))%list)
  <-> status = 500.
Proof.
  rewrite drop_app_length.
  destruct (Z.eqb_spec status 500) as [-> | Hne].
  - split; [reflexivity |]. intros _ h Hh. apply elem_of_cons. right. exact Hh.
  - split; [| intros; contradiction].
    intros Hh. specialize (Hh (INFO, "   Possible causes:")).
    assert ((INFO, "   Possible causes:") ∈ hints) as Hin
      by (unfold hints; rewrite !elem_of_cons; tauto).
    specialize (Hh Hin). apply elem_of_cons in Hh.
    destruct Hh as [Hh | Hh]; [discriminate Hh |].
    apply elem_of_nil in Hh. contradiction.
Qed.

(** ** The clock test *)

Lemma Qltb_lt (a b : Q) : PyFloat.Qltb a b = true <-> (a < b)%Q.
Proof.
  unfold PyFloat.Qltb. rewrite negb_true_iff. split.
  - intros H. apply Qnot_le_lt. intros Hle.
    apply Qle_bool_iff in Hle. congruence.
  - intros H. destruct (Qle_bool b a) eqn:E; [| reflexivity].
    apply Qle_bool_iff in E. exfalso. exact (Qlt_not_le _ _ H E).
Qed.

Lemma timed_out_iff cfg m now :
  timed_out cfg m now = true <->
  (inject_Z (MAX_REFRESH_TIMEOUT cfg) < now - start_time m)%Q.
Proof. apply Qltb_lt. Qed.

Lemma timed_out_false_iff cfg m now :
  timed_out cfg m now = false <->
  ~ (inject_Z (MAX_REFRESH_TIMEOUT cfg) < now - start_time m)%Q.
Proof.
  rewrite <- timed_out_iff. destruct (timed_out cfg m now); split; congruence.
Qed.

Lemma timed_out_frame cfg m m' now :
  start_time m' = start_time m -> timed_out cfg m' now = timed_out cfg m now.
Proof. unfold timed_out. intros ->. reflexivity. Qed.

(** ** One poll cycle *)

Lemma transition_frame cfg now answer m :
  start_time (transition cfg now answer m).2 = start_time m /\
  store_id (transition cfg now answer m).2 = store_id m.
Proof.
  unfold transition. destruct (timed_out cfg m now); [split; reflexivity |].
  destruct answer as [d |]; [| split; reflexivity].
  destruct (store_bucket d); split; reflexivity.
Qed.

Section LoopFacts.

Variable env : Env.
Variable cfg : Config.
Variables base_url api_key : string.

#[local] Abbreviation req_of m := (status_request base_url api_key (store_id m)).
#[local] Abbreviation answer := (answer_in env base_url api_key).
#[local] Abbreviation cycle := (poll_cycle env cfg base_url api_key).
#[local] Abbreviation loop n := (monitor_loop env cfg n base_url api_key).
#[local] Abbreviation plog n := (poll_log env cfg n base_url api_key).
#[local] Abbreviation quiet := (keeps_polling env cfg base_url api_key).

(** The effectful cycle refines [transition]; it reads the clock once,
    sends one GET unless it times out, and sleeps once unless it breaks. *)
Lemma poll_cycle_spec m w :
  let now := env_time env (clock_reads w) in
  let r := cycle m w in
  r.1 = transition cfg now (answer m w 0) m /\
  clock_reads r.2 = S (clock_reads w) /\
  requests r.2 = (requests w ++ if timed_out cfg m now then [] else [req_of m])%list /\
  sleeps r.2 = (sleeps w ++ match r.1.1 with
                            | Break => []
                            | Continue => [STATUS_CHECK_INTERVAL cfg]
                            end)%list.
Proof.
  cbv zeta. unfold poll_cycle, transition, timed_out, answer_in.
  rewrite Nat.add_0_r.
  unfold mbind, M_bind, time_time. cbv beta iota zeta.
  destruct (PyFloat.Qltb _ _).
  - run_world. rewrite !app_nil_r. repeat split; reflexivity.
  - unfold fetch_document_store_status, mbind, M_bind, send_get.
    cbv beta iota zeta. cbn [requests length].
    destruct (env_store env _ _) as [[d |] | e]; cbn [fetch_result];
      unfold mret, M_ret; cbv beta iota zeta.
    + unfold store_bucket, classify.
      destruct (bucket_of_upper _); run_world; rewrite ?app_nil_r;
        repeat split; reflexivity.
    + run_world. rewrite ?app_nil_r. repeat split; reflexivity.
    + run_world. rewrite ?app_nil_r. repeat split; reflexivity.
Qed.

Lemma monitor_loop_S n m w :
  loop (S n) m w =
    match (cycle m w).1.1 with
    | Break => cycle m w
    | Continue => loop n (cycle m w).1.2 (cycle m w).2
    end.
Proof.
  cbn [monitor_loop]. unfold mbind, M_bind.
  destruct (cycle m w) as [[[|] m1] w1]; reflexivity.
Qed.

(** Running [n + k] cycles is running [n], then [k] more unless the loop
    broke. *)
Lemma monitor_loop_add n : forall k m w,
  loop (n + k)%nat m w =
    match (loop n m w).1.1 with
    | Break => loop n m w
    | Continue => loop k (loop n m w).1.2 (loop n m w).2
    end.
Proof.
  induction n as [| n IH]; intros k m w.
  - reflexivity.
  - change (S n + k)%nat with (S (n + k)). rewrite !monitor_loop_S.
    destruct ((cycle m w).1.1) eqn:E.
    + rewrite E. reflexivity.
    + apply IH.
Qed.

(** How the hypothesis on cycle [S j] of a loop reads for the loop that
    starts one cycle later. *)
Lemma cycle_shift m w j :
  timed_out cfg m (env_time env (clock_reads w)) = false ->
  let r := cycle m w in
  (clock_reads r.2 + j = clock_reads w + S j)%nat /\
  (length (requests r.2) + j = length (requests w) + S j)%nat /\
  start_time r.1.2 = start_time m /\
  store_id r.1.2 = store_id m.
Proof.
  intros H0. cbv zeta.
  destruct (poll_cycle_spec m w) as (Ht & Hc & Hr & _).
  rewrite H0 in Hr. rewrite Hc, Hr, length_app, Ht. cbn [length].
  destruct (transition_frame cfg (env_time env (clock_reads w)) (answer m w 0) m)
    as [F1 F2].
  repeat split; try assumption; lia.
Qed.

Lemma quiet_shift m w j :
  timed_out cfg m (env_time env (clock_reads w)) = false ->
  quiet m w (S j) -> quiet (cycle m w).1.2 (cycle m w).2 j.
Proof.
  intros H0 [Hj1 Hj2].
  destruct (cycle_shift m w j H0) as (Ec & Er & Es & Ei).
  unfold keeps_polling, answer_in in *.
  rewrite Ec, Er, Ei, (timed_out_frame cfg m) by exact Es.
  split; assumption.
Qed.

(** While no cycle times out or sees a refreshable status the loop keeps
    turning: one clock reading, one GET and one sleep per cycle, and the
    monitor neither completed nor failed. *)
Lemma monitor_loop_continue n : forall m w,
  (forall j, (j < n)%nat -> quiet m w j) ->
  exists m' w',
    loop n m w = ((Continue, m'), w') /\
    clock_reads w' = (clock_reads w + n)%nat /\
    requests w' = (requests w ++ repeat (req_of m) n)%list /\
    sleeps w' = (sleeps w ++ repeat (STATUS_CHECK_INTERVAL cfg) n)%list /\
    start_time m' = start_time m /\ store_id m' = store_id m /\
    completed m' = completed m /\ error m' = error m /\
    final_status m' = final_status m.
Proof.
  induction n as [| n IH]; intros m w Hq.
  - exists m, w. cbn [monitor_loop repeat]. rewrite Nat.add_0_r, !app_nil_r.
    repeat split; reflexivity.
  - rewrite monitor_loop_S.
    destruct (poll_cycle_spec m w) as (Ht & Hc & Hr & Hs).
    destruct (Hq 0%nat ltac:(lia)) as [H0 A0]. rewrite !Nat.add_0_r in H0.
    rewrite H0 in Hr.
    assert (exists m1, (cycle m w).1 = (Continue, m1) /\
              start_time m1 = start_time m /\ store_id m1 = store_id m /\
              completed m1 = completed m /\ error m1 = error m /\
              final_status m1 = final_status m)
      as (m1 & E1 & F1 & F2 & F3 & F4 & F5).
    { rewrite Ht. unfold transition. rewrite H0.
      destruct (answer m w 0) as [d |].
      - destruct (store_bucket d); [congruence | | |];
          eexists; repeat split; reflexivity.
      - eexists; repeat split; reflexivity. }
    pose proof (fun j Hj => quiet_shift m w j H0 (Hq (S j) Hj)) as Hq'.
    rewrite E1 in Hs, Hq' |- *. cbn [fst snd] in *.
    destruct (IH m1 (cycle m w).2)
      as (m' & w' & E & Gc & Gr & Gs & G1 & G2 & G3 & G4 & G5).
    { intros j Hj. apply Hq'. lia. }
    exists m', w'. rewrite E, Gc, Gr, Gs, Hc, Hr, Hs, F2.
    cbn [repeat]. rewrite <- !app_assoc. cbn [app].
    repeat split; try congruence. lia.
Qed.

(** Cycles whose fetch fails leave the monitor itself untouched. *)
Lemma monitor_loop_retry n : forall m w,
  (forall j, (j < n)%nat ->
     timed_out cfg m (env_time env (clock_reads w + j)) = false /\
     answer m w j = None) ->
  (loop n m w).1 = (Continue, m).
Proof.
  induction n as [| n IH]; intros m w Hq.
  - reflexivity.
  - rewrite monitor_loop_S.
    destruct (poll_cycle_spec m w) as (Ht & _).
    destruct (Hq 0%nat ltac:(lia)) as [H0 A0]. rewrite !Nat.add_0_r in H0.
    assert ((cycle m w).1 = (Continue, m)) as E1.
    { rewrite Ht. unfold transition. rewrite H0, A0. reflexivity. }
    rewrite E1. cbn [fst snd].
    pose proof (fun j => cycle_shift m w j H0) as Hsh.
    cbv zeta in Hsh. rewrite E1 in Hsh. cbn [fst snd] in Hsh.
    apply IH. intros j Hj.
    destruct (Hsh j) as (Ec & Er & _ & _).
    destruct (Hq (S j) ltac:(lia)) as [Hj1 Hj2].
    unfold answer_in in *. rewrite Ec, Er. split; assumption.
Qed.

(** A loop that breaks leaves a completed monitor: timed out, or done
    with the status UPSERTED. *)
Lemma monitor_loop_break n : forall m w m' w',
  loop n m w = ((Break, m'), w') ->
  completed m' = true /\
  ((exists t, error m' = Some ("Timeout after " ++ t) /\
              final_status m' = final_status m) \/
   (error m' = error m /\ final_status m' = Some "UPSERTED")).
Proof.
  induction n as [| n IH]; intros m w m' w' E.
  - discriminate E.
  - rewrite monitor_loop_S in E.
    destruct (poll_cycle_spec m w) as (Ht & _).
    cbv zeta in Ht. unfold transition in Ht.
    destruct (timed_out cfg m _).
    + rewrite Ht in E. cbn [fst snd] in E.
      destruct (cycle m w) as [[c m1] w1]. cbn [fst] in Ht.
      injection Ht as -> ->. injection E as <- _.
      split; [reflexivity |]. left. eexists. split; reflexivity.
    + destruct (answer m w 0) as [d |].
      * destruct (store_bucket d) eqn:Eb.
        -- destruct (cycle m w) as [[c m1] w1]. cbn [fst snd] in *.
           injection Ht as -> ->. injection E as <- _.
           split; [reflexivity |]. right. split; [reflexivity |].
           cbn [final_status complete_with]. f_equal.
           unfold store_bucket in Eb. apply classify_refreshable in Eb. exact Eb.
        -- rewrite Ht in E. cbn [fst snd] in E. exact (IH _ _ _ _ E).
        -- rewrite Ht in E. cbn [fst snd] in E. exact (IH _ _ _ _ E).
        -- rewrite Ht in E. cbn [fst snd] in E. exact (IH _ _ _ _ E).
      * rewrite Ht in E. cbn [fst snd] in E. exact (IH _ _ _ _ E).
Qed.

(** If the clock is past the timeout at the start of cycle [n], the
    loop has broken by the end of that cycle. *)
Lemma monitor_loop_timeout_breaks n : forall m w,
  timed_out cfg m (env_time env (clock_reads w + n)) = true ->
  (loop (S n) m w).1.1 = Break.
Proof.
  induction n as [| n IH]; intros m w Hto.
  - rewrite Nat.add_0_r in Hto. rewrite monitor_loop_S.
    destruct (poll_cycle_spec m w) as (Ht & _).
    cbv zeta in Ht. unfold transition in Ht. rewrite Hto in Ht.
    rewrite Ht. cbn [fst]. rewrite Ht. reflexivity.
  - rewrite monitor_loop_S.
    destruct ((cycle m w).1.1) eqn:E; [exact E |].
    apply IH.
    destruct (poll_cycle_spec m w) as (Ht & Hc & _).
    rewrite Hc.
    replace (S (clock_reads w) + n)%nat with (clock_reads w + S n)%nat by lia.
    rewrite (timed_out_frame cfg m); [exact Hto |].
    cbv zeta in Ht. rewrite Ht. apply transition_frame.
Qed.

(** *** Chunk deltas *)

Lemma baseline_polled d m :
  0 <= iteration_count m -> baseline (polled d m) = Some (get (ds_totalChunks d) 0).
Proof.
  intros H. unfold baseline, polled, record_poll; cbn [iteration_count last_chunks].
  destruct (Z.ltb_spec 1 (iteration_count m + 1 + 1)); [reflexivity | lia].
Qed.

Lemma poll_delta_baseline m d :
  poll_delta m d = match baseline m with
                   | None => 0
                   | Some p => get (ds_totalChunks d) 0 - p
                   end.
Proof.
  unfold poll_delta, chunks_delta, baseline.
  destruct (1 <? iteration_count m + 1); reflexivity.
Qed.

(** The deltas of a run are the successive differences of the chunk
    counts of its successful polls; the failed fetches in between do
    not show. *)
Lemma poll_log_deltas n : forall m w,
  0 <= iteration_count m ->
  map snd (plog n m w) = deltas_since (baseline m) (map fst (plog n m w)).
Proof.
  induction n as [| n IH]; intros m w Hic.
  - reflexivity.
  - cbn [poll_log]. cbv zeta.
    destruct (poll_cycle_spec m w) as (Ht & _).
    cbv zeta in Ht. rewrite Ht. unfold transition.
    destruct (timed_out cfg m _); [reflexivity |].
    destruct (answer m w 0) as [d |].
    + assert (0 <= iteration_count (polled d m)) as Hic'
        by (unfold polled, record_poll; cbn [iteration_count]; lia).
      destruct (store_bucket d); cbn [fst snd app map deltas_since];
        rewrite poll_delta_baseline; f_equal;
        try reflexivity;
        rewrite <- (baseline_polled d m Hic); apply IH; exact Hic'.
    + cbn [fst snd app]. apply IH. exact Hic.
Qed.

(** [iteration_count] grows by the number of successful polls. *)
Lemma poll_log_counts n : forall m w,
  iteration_count (loop n m w).1.2 =
    iteration_count m + Z.of_nat (length (plog n m w)).
Proof.
  induction n as [| n IH]; intros m w.
  - cbn. lia.
  - rewrite monitor_loop_S. cbn [poll_log]. cbv zeta.
    destruct (poll_cycle_spec m w) as (Ht & _).
    cbv zeta in Ht. unfold transition in Ht.
    destruct (cycle m w) as [[c m1] w1]. cbn [fst snd] in *.
    destruct (timed_out cfg m _).
    + injection Ht as -> ->. cbn. lia.
    + destruct (answer m w 0) as [d |].
      * destruct (store_bucket d); injection Ht as -> ->; cbn [fst snd app length];
          rewrite ?IH;
          cbn [iteration_count complete_with polled record_poll length]; lia.
      * injection Ht as -> ->. cbn [fst snd app]. apply IH.
Qed.

(** *** monitor_refresh_progress and refresh_and_monitor *)

Lemma monitor_refresh_progress_spec fuel m w :
  monitor_refresh_progress env cfg fuel base_url api_key m w =
    let r := loop fuel m (header m w) in
    (match r.1.1 with
     | Break => Some r.1.2
     | Continue => None
     end, r.2).
Proof.
  unfold monitor_refresh_progress. run_world.
  replace (mkWorld (clock_reads w) (requests w) (sleeps w) _ (logged w))
    with (header m w)
    by (unfold header; rewrite <- !app_assoc; reflexivity).
  cbv zeta.
  destruct (monitor_loop _ _ _ _ _ _ _) as [[[|] m1] w1]; reflexivity.
Qed.

Lemma refresh_and_monitor_unfold fuel s w :
  refresh_and_monitor env cfg fuel base_url api_key s w =
    let m0 := (new_monitor env s w).1 in
    let t := trigger_refresh env base_url api_key (store_id m0)
               (new_monitor env s w).2 in
    if t.1 then monitor_refresh_progress env cfg fuel base_url api_key m0 t.2
    else (Some (fail_with "Failed to trigger refresh" m0), t.2).
Proof.
  unfold refresh_and_monitor, mbind, M_bind.
  destruct (new_monitor env s w) as [m0 w0]. cbn [fst snd].
  destruct (trigger_refresh env base_url api_key (store_id m0) w0) as [[|] w1];
    reflexivity.
Qed.

Lemma summary_loop_counts monitors : forall successful failed w,
  (summary_loop env monitors successful failed w).1 =
    (successful + successful_count monitors, failed + failed_count monitors).
Proof.
  unfold successful_count, failed_count.
  induction monitors as [| m rest IH]; intros successful failed w.
  - cbn. f_equal; lia.
  - cbn [summary_loop List.filter]. unfold mbind, M_bind, time_time.
    cbv beta iota zeta.
    destruct (PyStr.truthy (error m)); cbv beta iota zeta; run_world;
      destruct (0 <? last_chunks m - initial_chunks m);
      try destruct (last_chunks m - initial_chunks m <? 0);
      run_world; rewrite IH; cbn [negb length]; f_equal; lia.
Qed.

End LoopFacts.

(** * The claims *)

(** C8. For every status string the classification yields exactly one
    bucket, decided by the upper-cased string alone: Refreshable iff it is
    UPSERTED, Busy iff it is SYNCING or UPSERTING, Waiting iff it is STALE,
    Unknown otherwise; strings that agree up to case get the same bucket,
    and "upserted" and "UPSERTED" are both Refreshable. *)
Theorem classify_one_bucket (s : string) :
  (classify s = Refreshable <-> PyStr.upper s = "UPSERTED") /\
  (classify s = Busy <-> PyStr.upper s = "SYNCING" \/ PyStr.upper s = "UPSERTING") /\
  (classify s = Waiting <-> PyStr.upper s = "STALE") /\
  (classify s = Unknown <->
     PyStr.upper s <> "UPSERTED" /\ PyStr.upper s <> "SYNCING" /\
     PyStr.upper s <> "UPSERTING" /\ PyStr.upper s <> "STALE") /\
  (forall t, PyStr.upper t = PyStr.upper s -> classify t = classify s) /\
  classify "upserted" = Refreshable /\ classify "UPSERTED" = Refreshable.
Proof.
  unfold classify.
  destruct (bucket_of_upper_cases (PyStr.upper s))
    as [[Hu Hb] | [[Hu Hb] | [[Hu Hb] | [Hu Hb]]]]; rewrite Hb.
  all: repeat split; try (intros; congruence); try reflexivity.
  all: try (intros [? | ?]; congruence); try (intros (? & ? & ? & ?); congruence).
  all: try (destruct Hu; intros; congruence); try tauto.
  all: try (intros ? ->; congruence).
Qed.

(** C9. [filter_refreshable_stores] returns exactly the stores whose
    status classifies as Refreshable, in input order; a store in any other
    bucket is left out, however much its status resembles UPSERTED. *)
Theorem filter_refreshable_stores_exact (stores : list DocumentStore) :
  filter_refreshable_stores stores =
    filter (fun s => store_bucket s = Refreshable) stores /\
  sublist (filter_refreshable_stores stores) stores /\
  (forall s, store_bucket s <> Refreshable -> s ∉ filter_refreshable_stores stores) /\
  (forall s, s ∈ stores -> store_bucket s = Refreshable ->
             s ∈ filter_refreshable_stores stores) /\
  filter_refreshable_stores
    [ Samples.docs "UPSERTING" 1; Samples.docs "upserted" 2;
      Samples.docs "UPSERTED_PARTIAL" 3; Samples.docs "NOT UPSERTED" 4;
      Samples.docs "UPSERT" 5; Samples.docs "stale" 6;
      mkStore (Some "id7") None None None None; Samples.docs "Upserted" 8 ]
  = [ Samples.docs "upserted" 2; Samples.docs "Upserted" 8 ].
Proof.
  assert (filter_refreshable_stores stores =
            filter (fun s => store_bucket s = Refreshable) stores) as E.
  { unfold filter_refreshable_stores. rewrite fold_filter_step. reflexivity. }
  split; [exact E |]. rewrite E.
  split; [apply sublist_filter |].
  split; [| split].
  - intros s Hs Hin. apply list_elem_of_filter in Hin. tauto.
  - intros s Hin Hs. apply list_elem_of_filter. tauto.
  - vm_compute. reflexivity.
Qed.

(** C3. [trigger_refresh] tries the five variants in the fixed order and
    returns [True] right after the first one that gets a non-error
    response: when variants [0..j-1] fail and variant [j] succeeds, the
    requests sent are exactly the first [j+1] variants and nothing else
    happens.  With [j = 3]: POST, POST, POST fail, the first PUT
    succeeds, the second PUT is never sent. *)
Theorem trigger_stops_at_first_success
    (env : Env) (base_url api_key : string) (store_id : option string)
    (w : World) (j : nat) :
  (j < 5)%nat ->
  (forall i, (i < j)%nat -> variant_ok env base_url api_key store_id w i = false) ->
  variant_ok env base_url api_key store_id w j = true ->
  trigger_refresh env base_url api_key store_id w =
    (true, sent (take (S j) (variant_requests base_url api_key store_id)) w).
Proof. apply trigger_refresh_returns_true. Qed.

Lemma trigger_stops_at_first_success_witness :
  let vs := variant_requests "http://h" "KEY" (Some "id1") in
  trigger_refresh Samples.env_put_only "http://h" "KEY" (Some "id1") world0 =
    (true, sent (take 4 vs) world0) /\
  take 4 vs =
    [ mkRequest HttpPost "http://h/api/v1/document-store/refresh/id1"
        (get_headers "KEY") None;
      mkRequest HttpPost "http://h/api/v1/document-store/refresh/id1"
        (get_headers "KEY") (Some (JObject []));
      mkRequest HttpPost "http://h/api/v1/document-store/refresh/id1"
        (get_headers "KEY") (Some (JObject [("items", JArray [])]));
      mkRequest HttpPut "http://h/api/v1/document-store/refresh/id1"
        (get_headers "KEY") None ].
Proof.
  split.
  - apply (trigger_stops_at_first_success Samples.env_put_only
             "http://h" "KEY" (Some "id1") world0 3).
    + lia.
    + intros i Hi. destruct i as [| [| [| i]]]; [reflexivity .. | lia].
    + reflexivity.
  - reflexivity.
Defined.

(** C4. A rejected response loses its body on the way to the caller.
    Against a remote that answers every variant with status 502 and the
    body "Bad Gateway", each call of [_try_refresh_request] returns the
    status with an empty text and no headers, so the loop runs off the
    list with [last_error_status = 502] and [last_error_message = ""].
    [trigger_refresh] returns [False] after sending the five variants
    once each, in order, and the one error it logs names the status and
    not the body. *)
Theorem trigger_refresh_loses_the_response_body :
  let env := Samples.env_502 in
  let url := refresh_url "http://h" (Some "id1") in
  let headers := get_headers "KEY" in
  let r := trigger_refresh env "http://h" "KEY" (Some "id1") world0 in
  (forall j, (j < 5)%nat ->
     variant_exchange env "http://h" "KEY" (Some "id1") world0 j
       = RaisedResponseError 502 "Bad Gateway" []) /\
  (forall method payload w,
     (_try_refresh_request env url headers payload method w).1
       = (false, 502, "", [])) /\
  (attempt_loop env url headers attempts 0 "" [] world0).1
    = Exhausted 502 "" [] /\
  r.1 = false /\
  requests r.2 = variant_requests "http://h" "KEY" (Some "id1") /\
  logged r.2 = [(ERROR, "Failed to trigger refresh for store id1: HTTP 502")].
Proof.
  cbv zeta. split; [| split; [| repeat split]].
  - intros j Hj. reflexivity.
  - intros method payload w. reflexivity.
Qed.

(** C5, as stated, fails: a remote that answers 502 to every variant gets
    the error line but none of the hints. *)
Lemma hints_missing_at_502 :
  ~ (forall (env : Env) (base_url api_key : string) (store_id : option string)
            (w : World),
       (forall j, (j < 5)%nat ->
                  variant_ok env base_url api_key store_id w j = false) ->
       500 <= http_status (variant_exchange env base_url api_key store_id w 4)
         < 600 ->
       forall h, h ∈ hints ->
                 h ∈ logged (trigger_refresh env base_url api_key store_id w).2).
Proof.
  intros H.
  specialize (H Samples.env_502 "http://h" "KEY" (Some "id1") world0).
  specialize (H (fun j _ => eq_refl)).
  assert (500 <= http_status
                   (variant_exchange Samples.env_502 "http://h" "KEY"
                      (Some "id1") world0 4) < 600) as Hs
    by (change (500 <= 502 < 600); lia).
  specialize (H Hs (INFO, "   Possible causes:")).
  assert ((INFO, "   Possible causes:") ∈ hints) as Hin
    by (unfold hints; rewrite !elem_of_cons; tauto).
  specialize (H Hin). vm_compute in H.
  apply list_elem_of_In in H. destruct H as [H | []]. discriminate H.
Qed.

(** C5, amended. When all five variants fail, [trigger_refresh] returns
    [False] and logs one error line, which names the status code of the
    last response when there is one, and it logs the hints after that
    line exactly when that status code is 500. *)
Theorem hints_exactly_for_status_500
    (env : Env) (base_url api_key : string) (store_id : option string) (w : World) :
  (forall j, (j < 5)%nat -> variant_ok env base_url api_key store_id w j = false) ->
  let r := trigger_refresh env base_url api_key store_id w in
  let status :=
    http_status (variant_exchange env base_url api_key store_id w 4) in
  r.1 = false /\
  (exists line,
     logged r.2 = (logged w ++ (ERROR, line)
                             :: (if status =? 500 then hints else []))%list /\
     (0 < status ->
      exists detail,
        line = "Failed to trigger refresh for store " ++ PyStr.fmt_opt store_id
                 ++ ": HTTP " ++ PyStr.str_int status ++ detail)) /\
  ((forall h, h ∈ hints -> h ∈ drop (length (logged w)) (logged r.2))
   <-> status = 500).
Proof.
  intros Hall. cbv zeta.
  pose proof (Hall 4%nat ltac:(lia)) as H4. unfold variant_ok in H4.
  rewrite (trigger_refresh_exhausted env base_url api_key store_id w Hall).
  destruct (variant_exchange env base_url api_key store_id w 4)
    as [s t h | s t h | e]; [discriminate H4 | |];
    cbv beta iota zeta delta [error_of try_result http_status];
    cbn [fst snd logging logged sent];
    (split; [reflexivity |]); (split; [| apply hints_follow_iff_500]);
    eexists; (split; [reflexivity |]); intros Hpos.
  - exists "". unfold error_line. cbn [String.eqb].
    destruct (Z.ltb_spec 0 s); [reflexivity | lia].
  - lia.
Qed.

Lemma hints_exactly_for_status_500_witness :
  let r := trigger_refresh Samples.env_500 "http://h" "KEY" (Some "id1") world0 in
  r.1 = false /\
  (exists line,
     logged r.2 = ([] ++ (ERROR, line) :: hints)%list /\
     (0 < 500 ->
      exists detail,
        line = "Failed to trigger refresh for store id1: HTTP 500" ++ detail)) /\
  ((forall h, h ∈ hints -> h ∈ drop 0 (logged r.2)) <-> 500 = 500).
Proof.
  exact (hints_exactly_for_status_500 Samples.env_500 "http://h" "KEY"
           (Some "id1") world0 (fun j _ => eq_refl)).
Defined.

(** C1. Whenever a poll cycle starts with the elapsed time strictly above
    [MAX_REFRESH_TIMEOUT], the loop breaks in that cycle: the monitor is
    completed, its error records the elapsed time, its iteration count is
    as before, and neither a status fetch nor a sleep happens.  And as
    long as no cycle starts past the limit and every store fetched is
    busy, the loop is still turning, whatever the number of cycles. *)
Theorem monitor_times_out_only_past_the_limit
    (env : Env) (cfg : Config) (base_url api_key : string)
    (m : RefreshMonitor) (w : World) :
  ((inject_Z (MAX_REFRESH_TIMEOUT cfg) < elapsed_in env m w 0)%Q ->
   forall fuel, exists m' w',
     monitor_loop env cfg (S fuel) base_url api_key m w = ((Break, m'), w') /\
     completed m' = true /\
     error m' = Some ("Timeout after " ++ format_elapsed_time (elapsed_in env m w 0)) /\
     iteration_count m' = iteration_count m /\
     requests w' = requests w /\ sleeps w' = sleeps w)
  /\
  (forall n,
     (forall j, (j < n)%nat ->
        ~ (inject_Z (MAX_REFRESH_TIMEOUT cfg) < elapsed_in env m w j)%Q /\
        forall d, answer_in env base_url api_key m w j = Some d ->
                  store_bucket d = Busy) ->
     (exists m' w',
        monitor_loop env cfg n base_url api_key m w = ((Continue, m'), w') /\
        completed m' = completed m /\ error m' = error m /\
        final_status m' = final_status m /\
        length (requests w') = (length (requests w) + n)%nat) /\
     (monitor_refresh_progress env cfg n base_url api_key m w).1 = None).
Proof.
  split.
  - intros Hlate fuel.
    unfold elapsed_in in *. rewrite Nat.add_0_r in *.
    apply timed_out_iff in Hlate.
    destruct (poll_cycle_spec env cfg base_url api_key m w) as (Ht & _ & Hr & Hs).
    cbv zeta in Ht. unfold transition in Ht. rewrite Hlate in Ht, Hr.
    rewrite monitor_loop_S.
    destruct (poll_cycle env cfg base_url api_key m w) as [[c m1] w1].
    cbn [fst snd] in *. injection Ht as -> ->.
    rewrite app_nil_r in Hr, Hs.
    eexists _, w1. repeat split; try reflexivity; assumption.
  - intros n Hq.
    assert (forall w0, clock_reads w0 = clock_reads w -> requests w0 = requests w ->
              forall j, (j < n)%nat ->
                keeps_polling env cfg base_url api_key m w0 j) as Hquiet.
    { intros w0 Ec Er j Hj. destruct (Hq j Hj) as [Hnot Hbusy].
      unfold keeps_polling, answer_in, elapsed_in in *. rewrite Ec, Er.
      split; [apply timed_out_false_iff; exact Hnot |].
      destruct (fetch_result _) as [d |]; [| exact I].
      rewrite (Hbusy d eq_refl). discriminate. }
    split.
    + destruct (monitor_loop_continue env cfg base_url api_key n m w
                  (Hquiet w eq_refl eq_refl))
        as (m' & w' & E & _ & Gr & _ & _ & _ & G3 & G4 & G5).
      exists m', w'. rewrite Gr, length_app, repeat_length.
      repeat split; assumption.
    + rewrite monitor_refresh_progress_spec. cbv zeta.
      destruct (monitor_loop_continue env cfg base_url api_key n m (header m w)
                  (Hquiet (header m w) eq_refl eq_refl))
        as (m' & w' & E & _).
      rewrite E. reflexivity.
Qed.

Lemma monitor_times_out_only_past_the_limit_witness :
  (exists m' w',
     monitor_loop Samples.env_busy Samples.cfg_unit 1 "http://h" "KEY"
       Samples.monitor0 (mkWorld 3 [] [] [] []) = ((Break, m'), w') /\
     completed m' = true /\ error m' = Some "Timeout after 1s" /\
     iteration_count m' = 0 /\ requests w' = [] /\ sleeps w' = []) /\
  (monitor_refresh_progress Samples.env_busy Samples.cfg_unit 2 "http://h" "KEY"
     Samples.monitor0 SampleWorlds.triggered).1 = None.
Proof.
  split.
  - apply (monitor_times_out_only_past_the_limit Samples.env_busy Samples.cfg_unit
             "http://h" "KEY" Samples.monitor0 (mkWorld 3 [] [] [] [])).
    reflexivity.
  - apply (monitor_times_out_only_past_the_limit Samples.env_busy Samples.cfg_unit
             "http://h" "KEY" Samples.monitor0 SampleWorlds.triggered).
    intros j Hj. destruct j as [| [| j]]; [| | lia].
    + split; [vm_compute; discriminate |].
      intros d Hd. injection Hd as <-. reflexivity.
    + split; [vm_compute; discriminate |].
      intros d Hd. injection Hd as <-. reflexivity.
Defined.

(** C2. Cycles whose status fetch fails (and that do not start past the
    timeout) neither end the loop nor change the monitor, so its iteration
    count stays: each of them sends one GET and sleeps one polling
    interval, and after them the loop goes on as if started afresh.  In
    every run the iteration count grows by the number of polls that
    fetched a store. *)
Theorem failed_fetches_are_retried
    (env : Env) (cfg : Config) (base_url api_key : string)
    (m : RefreshMonitor) (w : World) (n : nat) :
  (forall j, (j < n)%nat ->
     ~ (inject_Z (MAX_REFRESH_TIMEOUT cfg) < elapsed_in env m w j)%Q /\
     answer_in env base_url api_key m w j = None) ->
  exists w',
    monitor_loop env cfg n base_url api_key m w = ((Continue, m), w') /\
    clock_reads w' = (clock_reads w + n)%nat /\
    requests w' =
      (requests w ++ repeat (status_request base_url api_key (store_id m)) n)%list /\
    sleeps w' = (sleeps w ++ repeat (STATUS_CHECK_INTERVAL cfg) n)%list /\
    (forall fuel,
       monitor_loop env cfg (n + fuel) base_url api_key m w =
         monitor_loop env cfg fuel base_url api_key m w') /\
    (forall fuel,
       iteration_count (monitor_loop env cfg fuel base_url api_key m w).1.2 =
         iteration_count m
         + Z.of_nat (length (poll_log env cfg fuel base_url api_key m w))).
Proof.
  intros Hq.
  assert (forall j, (j < n)%nat ->
            timed_out cfg m (env_time env (clock_reads w + j)) = false /\
            answer_in env base_url api_key m w j = None) as Hq'.
  { intros j Hj. destruct (Hq j Hj) as [Hnot Hnone].
    split; [apply timed_out_false_iff; exact Hnot | exact Hnone]. }
  destruct (monitor_loop_continue env cfg base_url api_key n m w)
    as (m' & w' & E & Gc & Gr & Gs & _).
  { intros j Hj. destruct (Hq' j Hj) as [H1 H2].
    split; [exact H1 | rewrite H2; exact I]. }
  pose proof (monitor_loop_retry env cfg base_url api_key n m w Hq') as Em.
  rewrite E in Em. cbn [fst] in Em. injection Em as ->.
  exists w'. repeat split; try assumption.
  - intros fuel. rewrite monitor_loop_add, E. reflexivity.
  - intros fuel. apply poll_log_counts.
Qed.

Lemma failed_fetches_are_retried_witness :
  exists w',
    monitor_loop Samples.env_flaky default_config 1 "http://h" "KEY"
      Samples.monitor0 SampleWorlds.triggered = ((Continue, Samples.monitor0), w') /\
    clock_reads w' = 2%nat /\
    requests w' =
      (requests SampleWorlds.triggered
         ++ [status_request "http://h" "KEY" (Some "id1")])%list /\
    sleeps w' = [15] /\
    (forall fuel,
       monitor_loop Samples.env_flaky default_config (1 + fuel) "http://h" "KEY"
         Samples.monitor0 SampleWorlds.triggered =
       monitor_loop Samples.env_flaky default_config fuel "http://h" "KEY"
         Samples.monitor0 w') /\
    (forall fuel,
       iteration_count
         (monitor_loop Samples.env_flaky default_config fuel "http://h" "KEY"
            Samples.monitor0 SampleWorlds.triggered).1.2 =
       0 + Z.of_nat (length (poll_log Samples.env_flaky default_config fuel
                               "http://h" "KEY" Samples.monitor0
                               SampleWorlds.triggered))).
Proof.
  apply (failed_fetches_are_retried Samples.env_flaky default_config
           "http://h" "KEY" Samples.monitor0 SampleWorlds.triggered 1).
  intros j Hj. destruct j as [| j]; [| lia].
  split; [vm_compute; discriminate | reflexivity].
Defined.

(** C6. In every run of the monitor loop the delta of a successful poll
    is its chunk count minus the chunk count of the successful poll before
    it, and [0] (nothing to report) when there was none before: failed
    fetches leave the baseline where it was, a successful poll moves it to
    its own count.  For the counts 100, 140, 140, 200 the deltas are
    0 (none), +40, +0, +60, with or without failed fetches in between;
    the busy report prints the non-zero ones. *)
Theorem chunk_delta_against_last_successful_poll
    (env : Env) (cfg : Config) (base_url api_key : string)
    (m : RefreshMonitor) (w : World) (n : nat) :
  0 <= iteration_count m ->
  map snd (poll_log env cfg n base_url api_key m w) =
    deltas_since (baseline m) (map fst (poll_log env cfg n base_url api_key m w)) /\
  (forall k,
     (forall j, (j < k)%nat ->
        timed_out cfg m (env_time env (clock_reads w + j)) = false /\
        answer_in env base_url api_key m w j = None) ->
     baseline (monitor_loop env cfg k base_url api_key m w).1.2 = baseline m) /\
  (forall d, baseline (polled d m) = Some (get (ds_totalChunks d) 0)) /\
  (iteration_count m = 0 -> baseline m = None) /\
  poll_log Samples.env_chunks default_config 4 "http://h" "KEY"
    Samples.monitor0 SampleWorlds.triggered
    = [(100, 0); (140, 40); (140, 0); (200, 60)] /\
  poll_log Samples.env_chunks_gaps default_config 8 "http://h" "KEY"
    Samples.monitor0 SampleWorlds.triggered
    = [(100, 0); (140, 40); (140, 0); (200, 60)] /\
  stdout (monitor_loop Samples.env_chunks default_config 4 "http://h" "KEY"
            Samples.monitor0 SampleWorlds.triggered).2
    = [ "Docs: UPSERTING [Check #1]"; "   Chunks: 100";
        "   Elapsed: 15s | Next check in 15s"; "";
        "Docs: UPSERTING [Check #2]"; "   Chunks: 140 (+40 since last check)";
        "   Elapsed: 30s | Next check in 15s"; "";
        "Docs: UPSERTING [Check #3]"; "   Chunks: 140";
        "   Elapsed: 45s | Next check in 15s"; "";
        "Docs: UPSERTING [Check #4]"; "   Chunks: 200 (+60 since last check)";
        "   Elapsed: 1m 0s | Next check in 15s"; "" ].
Proof.
  intros Hic. split; [apply poll_log_deltas; exact Hic |].
  split; [| split; [| split; [| split; [| split]]]].
  - intros k Hfail.
    rewrite (monitor_loop_retry env cfg base_url api_key k m w Hfail). reflexivity.
  - intros d. apply baseline_polled. exact Hic.
  - intros H0. unfold baseline. rewrite H0. reflexivity.
  - vm_compute. reflexivity.
  - vm_compute. reflexivity.
  - vm_compute. reflexivity.
Qed.

Lemma chunk_delta_against_last_successful_poll_witness :
  map snd (poll_log Samples.env_chunks_gaps default_config 8 "http://h" "KEY"
             Samples.monitor0 SampleWorlds.triggered) =
    deltas_since None [100; 140; 140; 200].
Proof.
  apply (chunk_delta_against_last_successful_poll Samples.env_chunks_gaps
           default_config "http://h" "KEY" Samples.monitor0
           SampleWorlds.triggered 8).
  vm_compute. discriminate.
Defined.

(** C7. [refresh_and_monitor] makes the monitor, then calls the trigger.
    If the trigger fails, it returns at once, for any fuel, the monitor
    marked failed and completed with iteration count 0: the only requests
    sent are the five refresh variants (no GET), [print] is not called, no
    sleep happens.  If the trigger succeeds, its result is the result of
    [monitor_refresh_progress] on that monitor. *)
Theorem refresh_and_monitor_sequencing
    (env : Env) (cfg : Config) (fuel : nat) (base_url api_key : string)
    (s : DocumentStore) (w : World) :
  let m0 := (new_monitor env s w).1 in
  let w0 := (new_monitor env s w).2 in
  let t := trigger_refresh env base_url api_key (store_id m0) w0 in
  (t.1 = false ->
   exists m w',
     refresh_and_monitor env cfg fuel base_url api_key s w = (Some m, w') /\
     m = fail_with "Failed to trigger refresh" m0 /\
     completed m = true /\ error m = Some "Failed to trigger refresh" /\
     final_status m = None /\ iteration_count m = 0 /\
     requests w' = (requests w ++ variant_requests base_url api_key (ds_id s))%list /\
     Forall (fun r => req_verb r <> HttpGet)
            (variant_requests base_url api_key (ds_id s)) /\
     sleeps w' = sleeps w /\ stdout w' = stdout w /\
     clock_reads w' = S (clock_reads w))
  /\
  (t.1 = true ->
   refresh_and_monitor env cfg fuel base_url api_key s w =
     monitor_refresh_progress env cfg fuel base_url api_key m0 t.2).
Proof.
  cbv zeta. rewrite refresh_and_monitor_unfold.
  destruct (new_monitor env s w) as [m0 w0] eqn:En. cbn [fst snd].
  assert (store_id m0 = ds_id s /\ iteration_count m0 = 0 /\
          final_status m0 = None /\
          clock_reads w0 = S (clock_reads w) /\ requests w0 = requests w /\
          sleeps w0 = sleeps w /\ stdout w0 = stdout w)
    as (Hid & Hic & Hfs & Hc & Hr & Hs & Ho).
  { unfold new_monitor, mbind, M_bind, time_time, mret, M_ret in En.
    injection En as <- <-. repeat split; reflexivity. }
  pose proof (trigger_refresh_frame env base_url api_key (store_id m0) w0)
    as (Fc & Fs & Fo & n & Hn & Fr & Fn).
  destruct (trigger_refresh env base_url api_key (store_id m0) w0) as [ok w1].
  cbn [fst snd] in *. split.
  - intros ->. specialize (Fn eq_refl). subst n. cbn [negb].
    eexists _, w1. split; [reflexivity |].
    rewrite Fr, Fs, Fo, Fc, Hr, Hs, Ho, Hc, <- Hid.
    repeat split; try reflexivity; try assumption.
    unfold variant_requests. repeat constructor; discriminate.
  - intros ->. reflexivity.
Qed.

Lemma refresh_and_monitor_sequencing_witness :
  (exists m w',
     refresh_and_monitor Samples.env_502 default_config 0 "http://h" "KEY"
       (Samples.docs "UPSERTED" 90) world0 = (Some m, w') /\
     error m = Some "Failed to trigger refresh" /\ iteration_count m = 0 /\
     length (requests w') = 5%nat /\ stdout w' = [] /\ sleeps w' = []) /\
  refresh_and_monitor Samples.env_flaky default_config 3 "http://h" "KEY"
    (Samples.docs "UPSERTED" 90) world0 =
  monitor_refresh_progress Samples.env_flaky default_config 3 "http://h" "KEY"
    Samples.monitor0 SampleWorlds.triggered.
Proof.
  pose proof (refresh_and_monitor_sequencing Samples.env_502 default_config 0
                "http://h" "KEY" (Samples.docs "UPSERTED" 90) world0) as [Hfail _].
  pose proof (refresh_and_monitor_sequencing Samples.env_flaky default_config 3
                "http://h" "KEY" (Samples.docs "UPSERTED" 90) world0) as [_ Hok].
  split.
  - destruct (Hfail eq_refl)
      as (m & w' & E & _ & _ & He & _ & Hi & Hr & _ & Hs & Ho & _).
    exists m, w'. rewrite Hr, Hs, Ho. repeat split; assumption.
  - exact (Hok eq_refl).
Defined.

(** C10. A monitor returned by [refresh_and_monitor] is completed, and
    exactly one of [error] and [final_status] is set: the error after a
    failed trigger and after a timeout, the final status (UPSERTED) after
    completion.  An error that is set is a non-empty string, so the test
    [if monitor.error] of [display_summary] sorts each such monitor into
    exactly one of its two counters, whose sum is the number of monitors. *)
Theorem returned_monitor_is_settled
    (env : Env) (cfg : Config) (fuel : nat) (base_url api_key : string)
    (s : DocumentStore) (w : World) (m : RefreshMonitor) (w' : World) :
  refresh_and_monitor env cfg fuel base_url api_key s w = (Some m, w') ->
  let triggered :=
    (trigger_refresh env base_url api_key (ds_id s) (new_monitor env s w).2).1 in
  completed m = true /\
  ((triggered = false /\ error m = Some "Failed to trigger refresh" /\
    final_status m = None) \/
   (triggered = true /\ (exists t, error m = Some ("Timeout after " ++ t)) /\
    final_status m = None) \/
   (triggered = true /\ error m = None /\ final_status m = Some "UPSERTED")) /\
  (PyStr.truthy (error m) = true <-> error m <> None) /\
  (PyStr.truthy (error m) = false <-> final_status m <> None) /\
  (forall monitors successful failed w1,
     (summary_loop env monitors successful failed w1).1 =
       (successful + successful_count monitors, failed + failed_count monitors)) /\
  (forall monitors,
     successful_count monitors + failed_count monitors
       = Z.of_nat (length monitors)).
Proof.
  intros E. cbv zeta.
  assert (completed m = true /\
          ((trigger_refresh env base_url api_key (ds_id s)
              (new_monitor env s w).2).1 = false /\
           error m = Some "Failed to trigger refresh" /\ final_status m = None \/
           (trigger_refresh env base_url api_key (ds_id s)
              (new_monitor env s w).2).1 = true /\
           (exists t, error m = Some ("Timeout after " ++ t)) /\
           final_status m = None \/
           (trigger_refresh env base_url api_key (ds_id s)
              (new_monitor env s w).2).1 = true /\
           error m = None /\ final_status m = Some "UPSERTED")) as [Hc Hcases].
  { rewrite refresh_and_monitor_unfold in E.
    change (new_monitor env s w)
      with (mkMonitor s (ds_id s) (get (ds_name s) "Unnamed Store")
              (env_time env (clock_reads w)) "STARTING" false None None 0 0
              (get (ds_totalChunks s) 0),
            mkWorld (S (clock_reads w)) (requests w) (sleeps w) (stdout w)
              (logged w)) in *.
    cbn [fst snd store_id] in *.
    destruct (trigger_refresh env base_url api_key (ds_id s) _) as [ok w1].
    cbn [fst snd] in *. destruct ok.
    - rewrite monitor_refresh_progress_spec in E. cbv zeta in E.
      destruct (monitor_loop _ _ _ _ _ _ _) as [[[|] m1] w2] eqn:El;
        cbn [fst snd] in E; [| discriminate E].
      injection E as -> ->.
      destruct (monitor_loop_break _ _ _ _ _ _ _ _ _ El)
        as [Hc [(t & He & Hf) | (He & Hf)]].
      + split; [exact Hc |]. right. left. repeat split; eauto.
      + split; [exact Hc |]. right. right. repeat split; assumption.
    - injection E as <- <-.
      split; [reflexivity |]. left. repeat split; reflexivity. }
  split; [exact Hc |]. split; [exact Hcases |].
  split; [| split; [| split]].
  - destruct Hcases as [(_ & -> & _) | [(_ & (t & ->) & _) | (_ & -> & _)]];
      cbn [PyStr.truthy String.append]; split; intros H;
      first [reflexivity | discriminate | congruence].
  - destruct Hcases as [(_ & -> & ->) | [(_ & (t & ->) & ->) | (_ & -> & ->)]];
      cbn [PyStr.truthy String.append]; split; intros H;
      first [reflexivity | discriminate | congruence].
  - intros monitors successful failed w1. apply summary_loop_counts.
  - intros monitors. unfold successful_count, failed_count.
    rewrite <- Nat2Z.inj_add, Nat.add_comm, List.filter_length. reflexivity.
Qed.

Lemma returned_monitor_is_settled_witness :
  exists m w',
    refresh_and_monitor Samples.env_busy Samples.cfg_unit 3 "http://h" "KEY"
      (Samples.docs "UPSERTED" 90) world0 = (Some m, w') /\
    completed m = true /\ error m = Some "Timeout after 1s" /\
    final_status m = None /\ PyStr.truthy (error m) = true.
Proof.
  destruct (refresh_and_monitor Samples.env_busy Samples.cfg_unit 3 "http://h" "KEY"
              (Samples.docs "UPSERTED" 90) world0) as [[m |] w'] eqn:E;
    [| vm_compute in E; discriminate E].
  exists m, w'. split; [reflexivity |].
  destruct (returned_monitor_is_settled Samples.env_busy Samples.cfg_unit 3
              "http://h" "KEY" (Samples.docs "UPSERTED" 90) world0 m w' E)
    as (Hc & _ & Ht & _).
  vm_compute in E. injection E as <- <-.
  repeat split.
Defined.

(** * Further properties *)

(** ** format_elapsed_time *)

Lemma Qfloor_div_Z (q : Q) (d : positive) :
  Qfloor (q / inject_Z (Zpos d)) = Qfloor q / Zpos d.
Proof.
  destruct q as [n p]. unfold Qdiv, Qinv, inject_Z, Qmult, Qfloor. cbn [Qnum Qden].
  rewrite Z.mul_1_r, Pos2Z.inj_mul. rewrite Z.div_div by lia. reflexivity.
Qed.

Lemma Qfloor_sub_Z (q : Q) (k : Z) :
  Qfloor (q - inject_Z k) = Qfloor q - k.
Proof.
  destruct q as [n p]. unfold Qminus, Qplus, Qopp, inject_Z, Qfloor. cbn [Qnum Qden].
  rewrite Pos.mul_1_r, Z.mul_1_r.
  replace (n + - k * Z.pos p) with (n + (- k) * Z.pos p) by lia.
  rewrite Z.div_add by lia. lia.
Qed.

Lemma Qltb_floor (q : Q) (k : Z) :
  PyFloat.Qltb q (inject_Z k) = (Qfloor q <? k).
Proof.
  destruct (Z.ltb_spec (Qfloor q) k) as [H | H].
  - apply Qltb_lt. apply Qlt_le_trans with (inject_Z (Qfloor q + 1)).
    + apply Qlt_floor.
    + rewrite <- Zle_Qle. lia.
  - destruct (PyFloat.Qltb q (inject_Z k)) eqn:E; [| reflexivity].
    apply Qltb_lt in E. exfalso.
    assert (inject_Z k <= q)%Q as Hle.
    { apply Qle_trans with (inject_Z (Qfloor q)); [rewrite <- Zle_Qle; lia |].
      apply Qfloor_le. }
    exact (Qlt_not_le _ _ E Hle).
Qed.

Lemma int_of_inject (z : Z) : PyFloat.int_of (inject_Z z) = z.
Proof.
  unfold PyFloat.int_of. rewrite Qfloor_Z, Qceiling_Z. destruct (Qle_bool _ _); reflexivity.
Qed.

Lemma int_of_nonneg (q : Q) : (0 <= q)%Q -> PyFloat.int_of q = Qfloor q.
Proof.
  intros H. unfold PyFloat.int_of. apply Qle_bool_iff in H. rewrite H. reflexivity.
Qed.

Lemma modulo_floor (q : Q) (d : positive) :
  (0 <= PyFloat.modulo q (Zpos d))%Q /\
  Qfloor (PyFloat.modulo q (Zpos d)) = Qfloor q mod Zpos d.
Proof.
  unfold PyFloat.modulo, PyFloat.floordiv. rewrite Qfloor_div_Z.
  assert (inject_Z (Z.pos d) * inject_Z (Qfloor q / Z.pos d)
          == inject_Z (Z.pos d * (Qfloor q / Z.pos d)))%Q as E
    by (rewrite inject_Z_mult; reflexivity).
  split.
  - rewrite E. apply (Qplus_le_r _ _ (inject_Z (Z.pos d * (Qfloor q / Z.pos d)))).
    ring_simplify.
    apply Qle_trans with (inject_Z (Qfloor q)); [| apply Qfloor_le].
    rewrite <- Zle_Qle. apply Z.mul_div_le. lia.
  - assert (q - inject_Z (Z.pos d) * inject_Z (Qfloor q / Z.pos d)
            == q - inject_Z (Z.pos d * (Qfloor q / Z.pos d)))%Q as E2
      by (rewrite E; reflexivity).
    rewrite (Qfloor_comp _ _ E2), Qfloor_sub_Z. rewrite Z.mod_eq by lia. reflexivity.
Qed.

(** X1. For a non-negative duration [format_elapsed_time] shows the whole
    seconds below a minute, minutes and seconds below an hour, hours and
    minutes from then on; the parts are those of the duration rounded down
    to whole seconds, minutes and seconds staying below 60. *)
Theorem format_elapsed_time_parts (seconds : Q) :
  (0 <= seconds)%Q ->
  let t := Qfloor seconds in
  format_elapsed_time seconds =
    (if t <? 60 then PyStr.str_int t ++ "s"
     else if t <? 3600 then
       PyStr.str_int (t / 60) ++ "m " ++ PyStr.str_int (t mod 60) ++ "s"
     else
       PyStr.str_int (t / 3600) ++ "h " ++ PyStr.str_int (t mod 3600 / 60) ++ "m")
  /\ 0 <= t
  /\ (60 <= t < 3600 -> 1 <= t / 60 <= 59 /\ 0 <= t mod 60 <= 59)
  /\ (3600 <= t -> 1 <= t / 3600 /\ 0 <= t mod 3600 / 60 <= 59).
Proof.
  intros Hs. cbv zeta. split; [| split; [| split]].
  - unfold format_elapsed_time. rewrite !Qltb_floor.
    destruct (Qfloor seconds <? 60); [by rewrite int_of_nonneg |].
    destruct (Qfloor seconds <? 3600).
    + unfold PyFloat.floordiv at 1. rewrite int_of_inject, Qfloor_div_Z.
      destruct (modulo_floor seconds 60) as [H0 H1].
      rewrite (int_of_nonneg _ H0), H1. reflexivity.
    + unfold PyFloat.floordiv at 1. rewrite int_of_inject, Qfloor_div_Z.
      unfold PyFloat.floordiv at 1. rewrite int_of_inject, Qfloor_div_Z.
      destruct (modulo_floor seconds 3600) as [H0 H1]. rewrite H1. reflexivity.
  - rewrite <- (Qfloor_Z 0). apply Qfloor_resp_le. exact Hs.
  - intros [H1 H2]. pose proof (Z.mod_pos_bound (Qfloor seconds) 60 ltac:(lia)).
    assert (Qfloor seconds / 60 < 60) by (apply Z.div_lt_upper_bound; lia).
    assert (1 <= Qfloor seconds / 60) by (apply Z.div_le_lower_bound; lia).
    lia.
  - intros H1. pose proof (Z.mod_pos_bound (Qfloor seconds) 3600 ltac:(lia)).
    assert (Qfloor seconds mod 3600 / 60 < 60) by (apply Z.div_lt_upper_bound; lia).
    assert (1 <= Qfloor seconds / 3600) by (apply Z.div_le_lower_bound; lia).
    assert (0 <= Qfloor seconds mod 3600 / 60) by (apply Z.div_pos; lia).
    lia.
Qed.
#[local] Set Warnings "-clear-no-such-hyp".

(** ** parse_user_selection *)

Lemma only_printed_refl w : only_printed w w.
Proof. repeat split. Qed.

Lemma only_printed_trans w1 w2 w3 :
  only_printed w1 w2 -> only_printed w2 w3 -> only_printed w1 w3.
Proof.
  unfold only_printed. intros (A1 & A2 & A3 & A4) (B1 & B2 & B3 & B4).
  repeat split; congruence.
Qed.

Lemma select_part_spec max_index selected part w :
  (select_part max_index selected part w).1 = selected ∪ part_numbers max_index part /\
  only_printed w (select_part max_index selected part w).2.
Proof.
  unfold part_numbers, select_part.
  destruct (PyText.has_char _ _).
  - destruct (PyText.split_once _ _) as [a b].
    destruct (PyText.int (PyText.strip a)) as [start |];
      [destruct (PyText.int (PyText.strip b)) as [end_ |];
       [destruct (_ || _ || _)%bool |] |];
      run_world; (split; [set_solver | repeat split]).
  - destruct (PyText.int _) as [num |]; [destruct (_ && _)%bool |];
      run_world; (split; [set_solver | repeat split]).
Qed.

Lemma part_numbers_bounds max_index part x :
  x ∈ part_numbers max_index part -> 1 <= x <= max_index.
Proof.
  unfold part_numbers, select_part.
  destruct (PyText.has_char _ _).
  - destruct (PyText.split_once _ _) as [a b].
    destruct (PyText.int (PyText.strip a)) as [start |];
      [destruct (PyText.int (PyText.strip b)) as [end_ |] |];
      try (run_world; set_solver).
    destruct (start <? 1) eqn:E1; [run_world; set_solver |].
    destruct (max_index <? end_) eqn:E2; [run_world; set_solver |].
    destruct (end_ <? start) eqn:E3; [run_world; set_solver |].
    cbn [orb]. run_world. rewrite union_empty_l_L, elem_of_list_to_set, elem_of_seqZ.
    lia.
  - destruct (PyText.int _) as [num |]; [| run_world; set_solver].
    destruct (1 <=? num) eqn:E1; [| run_world; set_solver].
    destruct (num <=? max_index) eqn:E2; [| run_world; set_solver].
    cbn [andb]. run_world. rewrite union_empty_l_L, elem_of_singleton.
    intros ->. lia.
Qed.

Lemma select_parts_spec max_index parts : forall selected w,
  (forall x, x ∈ (select_parts max_index selected parts w).1 <->
             x ∈ selected \/ exists part, part ∈ parts /\ x ∈ part_numbers max_index part) /\
  only_printed w (select_parts max_index selected parts w).2.
Proof.
  induction parts as [| part rest IH]; intros selected w.
  - cbn. split; [| apply only_printed_refl].
    intros x. split; [tauto |]. intros [Hx | (p & Hp & _)]; [exact Hx |].
    apply elem_of_nil in Hp. contradiction.
  - cbn [select_parts]. unfold mbind, M_bind.
    destruct (select_part_spec max_index selected part w) as [E F].
    destruct (select_part max_index selected part w) as [sel1 w1].
    cbn [fst snd] in *. subst sel1.
    destruct (IH (selected ∪ part_numbers max_index part) w1) as [Hm Hf].
    split; [| exact (only_printed_trans _ _ _ F Hf)].
    intros x. rewrite Hm, elem_of_union. split.
    + intros [[Hx | Hx] | (p & Hp & Hx)]; [tauto | |].
      * right. exists part. split; [apply elem_of_cons; tauto | exact Hx].
      * right. exists p. split; [apply elem_of_cons; tauto | exact Hx].
    + intros [Hx | (p & Hp & Hx)]; [tauto |].
      apply elem_of_cons in Hp. destruct Hp as [-> | Hp]; [tauto |].
      right. exists p. tauto.
Qed.

(** A list sorted by [<=] without duplicates is strictly increasing. *)
Lemma StronglySorted_le_lt (l : list Z) :
  StronglySorted Z.le l -> NoDup l -> StronglySorted Z.lt l.
Proof.
  induction 1 as [| x l Hs IH Hall]; intros Hnd; [constructor |].
  apply NoDup_cons in Hnd. destruct Hnd as [Hx Hnd].
  constructor; [exact (IH Hnd) |].
  rewrite List.Forall_forall in *. intros y Hy.
  specialize (Hall y Hy). apply list_elem_of_In in Hy.
  assert (x <> y) by (intros ->; contradiction). lia.
Qed.

Lemma sorted_list_spec (selected : gset Z) :
  StronglySorted Z.lt (sorted_list selected) /\
  forall x, x ∈ sorted_list selected <-> x ∈ selected.
Proof.
  unfold sorted_list. split.
  - apply StronglySorted_le_lt.
    + apply (StronglySorted_merge_sort Z.le).
    + rewrite merge_sort_Permutation. apply NoDup_elements.
  - intros x. rewrite merge_sort_Permutation. apply elem_of_elements.
Qed.

Lemma StronglySorted_seqZ m n : StronglySorted Z.lt (seqZ m n).
Proof.
  destruct (Z.le_gt_cases n 0) as [Hn | Hn]; [rewrite seqZ_nil by lia; constructor |].
  rewrite <- (Z2Nat.id n) by lia. generalize (Z.to_nat n) as k. clear. intros k.
  revert m. induction k as [| k IH]; intros m; [constructor |].
  rewrite seqZ_cons by lia.
  replace (Z.pred (Z.of_nat (S k))) with (Z.of_nat k) by lia.
  constructor; [apply IH |].
  apply List.Forall_forall. intros y Hy. apply list_elem_of_In, elem_of_seqZ in Hy. lia.
Qed.

Lemma parse_user_selection_bounds (user_input : string) (max_index : Z) (w : World) :
  let r := parse_user_selection user_input max_index w in
  Forall (fun idx => 1 <= idx <= max_index) r.1 /\
  StronglySorted Z.lt r.1 /\
  only_printed w r.2.
Proof.
  cbv zeta. unfold parse_user_selection.
  destruct (String.eqb _ "all").
  - cbn [mret M_ret fst snd]. split; [| split].
    + apply Forall_seqZ. intros j Hj. lia.
    + apply StronglySorted_seqZ.
    + apply only_printed_refl.
  - unfold mbind, M_bind.
    destruct (select_parts_spec max_index
                (PyText.split "," (PyText.lower (PyText.strip user_input))) ∅ w)
      as [Hm Hf].
    destruct (select_parts _ _ _ _) as [sel w1]. cbn [fst snd mret M_ret] in *.
    destruct (sorted_list_spec sel) as [Hs He].
    split; [| split; assumption].
    apply List.Forall_forall. intros x Hx.
    apply list_elem_of_In, He, Hm in Hx.
    destruct Hx as [Hx | (p & _ & Hx)]; [set_solver |].
    exact (part_numbers_bounds _ _ _ Hx).
Qed.

(** X2. Whatever the user types, the indices [parse_user_selection]
    returns lie between 1 and [max_index] and are strictly increasing;
    the call only prints. *)
Theorem parse_user_selection_in_range (user_input : string) (max_index : Z) (w : World) :
  let r := parse_user_selection user_input max_index w in
  Forall (fun idx => 1 <= idx <= max_index) r.1 /\
  StronglySorted Z.lt r.1 /\
  only_printed w r.2.
Proof. apply parse_user_selection_bounds. Qed.

(** X3. Unless the whole input is "all", the selection is the union of
    what its comma-separated parts select one by one: a number is
    returned iff some part selects it. *)
Theorem parse_user_selection_union (user_input : string) (max_index : Z) (w : World) :
  PyText.lower (PyText.strip user_input) <> "all" ->
  forall idx,
    idx ∈ (parse_user_selection user_input max_index w).1 <->
    exists part,
      part ∈ PyText.split "," (PyText.lower (PyText.strip user_input)) /\
      idx ∈ part_numbers max_index part.
Proof.
  intros Hall idx. unfold parse_user_selection.
  destruct (String.eqb_spec (PyText.lower (PyText.strip user_input)) "all")
    as [E | _]; [contradiction |].
  unfold mbind, M_bind.
  destruct (select_parts_spec max_index
              (PyText.split "," (PyText.lower (PyText.strip user_input))) ∅ w)
    as [Hm _].
  destruct (select_parts _ _ _ _) as [sel w1]. cbn [fst snd mret M_ret] in *.
  destruct (sorted_list_spec sel) as [_ He].
  rewrite He, Hm. split; [| tauto].
  intros [Hx | Hx]; [set_solver | exact Hx].
Qed.

(** Picking the elements at strictly increasing positions gives a
    sublist. *)
Lemma increasing_positions_sublist {A} (l : list A) : forall (k : Z) (idxs : list Z),
  StronglySorted Z.lt idxs ->
  Forall (fun i => k < i <= k + Z.of_nat (length l)) idxs ->
  exists picked,
    Forall2 (fun i x => k < i /\ l !! Z.to_nat (i - 1 - k) = Some x) idxs picked /\
    sublist picked l.
Proof.
  induction l as [| x l IH]; intros k idxs Hs Hb.
  - destruct idxs as [| i rest].
    + exists []. split; constructor.
    + apply Forall_cons in Hb. destruct Hb as [Hi _]. cbn in Hi. lia.
  - destruct idxs as [| i rest].
    + exists []. split; [constructor | apply sublist_nil_l].
    + apply StronglySorted_inv in Hs. destruct Hs as [Hs Hlt].
      apply Forall_cons in Hb. destruct Hb as [Hi Hb].
      assert (forall j y,
                k + 1 < j /\ l !! Z.to_nat (j - 1 - (k + 1)) = Some y ->
                k < j /\ (x :: l) !! Z.to_nat (j - 1 - k) = Some y) as Hstep.
      { intros j y [Hj Hy]. split; [lia |].
        replace (Z.to_nat (j - 1 - k)) with (S (Z.to_nat (j - 1 - (k + 1)))) by lia.
        exact Hy. }
      cbn [length] in Hi, Hb.
      destruct (Z.eq_dec i (k + 1)) as [-> | Hne].
      * destruct (IH (k + 1) rest Hs) as (picked & Hp & Hsub).
        { rewrite List.Forall_forall in *. intros j Hj.
          specialize (Hb j Hj). specialize (Hlt j Hj). lia. }
        exists (x :: picked). split; [| by apply sublist_skip].
        constructor.
        -- split; [lia |]. replace (k + 1 - 1 - k) with 0 by lia. reflexivity.
        -- eapply Forall2_impl; [exact Hp | exact Hstep].
      * destruct (IH (k + 1) (i :: rest)) as (picked & Hp & Hsub).
        { constructor; assumption. }
        { constructor; [lia |].
          rewrite List.Forall_forall in *. intros j Hj.
          specialize (Hb j Hj). specialize (Hlt j Hj). lia. }
        exists picked. split; [| by apply sublist_cons].
        eapply Forall2_impl; [exact Hp | exact Hstep].
Qed.

Lemma getitem_from_one {A} (l : list A) (idx : Z) :
  1 <= idx -> getitem l (idx - 1) = l !! Z.to_nat (idx - 1).
Proof.
  intros H. unfold getitem. destruct (Z.leb_spec 0 (idx - 1)); [reflexivity | lia].
Qed.

(** X4. The indices [parse_user_selection] returns for a menu of
    [len(stores)] entries all address a store: [stores[idx - 1]] raises no
    [IndexError] and never counts from the end, and the stores picked are
    a sublist of the menu, one per index. *)
Theorem selected_stores_are_a_sublist {A} (stores : list A) (user_input : string)
    (w : World) :
  let selected_indices :=
    (parse_user_selection user_input (Z.of_nat (length stores)) w).1 in
  exists picked,
    selected_stores stores selected_indices = Some picked /\
    sublist picked stores /\
    Forall2 (fun idx store => 1 <= idx /\ stores !! Z.to_nat (idx - 1) = Some store)
            selected_indices picked.
Proof.
  cbv zeta.
  destruct (parse_user_selection_bounds user_input (Z.of_nat (length stores)) w)
    as (Hb & Hs & _).
  destruct (increasing_positions_sublist stores 0 _ Hs) as (picked & Hp & Hsub).
  { eapply Forall_impl; [exact Hb |]. cbn. intros i Hi. lia. }
  assert (Forall2 (fun idx store =>
                     1 <= idx /\ stores !! Z.to_nat (idx - 1) = Some store)
            (parse_user_selection user_input (Z.of_nat (length stores)) w).1 picked)
    as Hq.
  { eapply Forall2_impl; [exact Hp |]. cbn. intros i y [Hi Hy].
    split; [lia |]. rewrite Z.sub_0_r in Hy. exact Hy. }
  exists picked. split; [| split; assumption].
  unfold selected_stores. apply mapM_Some.
  eapply Forall2_impl; [exact Hq |]. cbn. intros i y [Hi Hy].
  rewrite getitem_from_one by exact Hi. exact Hy.
Qed.

(** ** Prefixes and substrings *)

Lemma append_cons (c : ascii) (s r : string) :
  String c s ++ r = String c (s ++ r).
Proof. reflexivity. Qed.

Lemma prefix_app (p s : string) :
  String.prefix p s = true <-> exists r, s = p ++ r.
Proof.
  revert s. induction p as [| c p IH]; intros s.
  - split; [intros _; exists s; reflexivity | intros _; destruct s; reflexivity].
  - destruct s as [| d s]; cbn.
    + split; [discriminate | intros [r Hr]; rewrite append_cons in Hr; discriminate Hr].
    + destruct (Ascii.ascii_dec c d) as [-> | Hne].
      * rewrite IH. split; intros [r Hr]; exists r.
        -- rewrite append_cons. rewrite Hr. reflexivity.
        -- rewrite append_cons in Hr. injection Hr as Hr. exact Hr.
      * split; [discriminate |]. intros [r Hr]. rewrite append_cons in Hr. congruence.
Qed.

Lemma contains_app (needle hay : string) :
  PyText.contains needle hay = true <-> exists a b, hay = a ++ needle ++ b.
Proof.
  induction hay as [| c hay IH].
  - cbn [PyText.contains]. rewrite orb_false_r, prefix_app. split.
    + intros [r Hr]. exists "", r. exact Hr.
    + intros (a & b & E). destruct a as [| x a];
        [exists b; exact E | rewrite append_cons in E; discriminate E].
  - cbn [PyText.contains]. rewrite orb_true_iff, prefix_app, IH. split.
    + intros [[r Hr] | (a & b & E)].
      * exists "", r. exact Hr.
      * exists (String c a), b. rewrite append_cons. congruence.
    + intros (a & b & E). destruct a as [| x a].
      * left. exists b. exact E.
      * right. exists a, b. rewrite append_cons in E. congruence.
Qed.

(** ** find_stores_by_criteria *)

Lemma add_matching_spec {A : Type} `{EqDecision A}
    (matches : A -> bool) (all_stores : list A) :
  forall matching,
    NoDup matching ->
    NoDup (add_matching matches all_stores matching) /\
    forall x, x ∈ add_matching matches all_stores matching <->
              x ∈ matching \/ (x ∈ all_stores /\ matches x = true).
Proof.
  unfold add_matching.
  induction all_stores as [| s rest IH]; intros matching Hnd.
  - cbn. split; [exact Hnd |]. intros x. rewrite elem_of_nil. tauto.
  - cbn [fold_left].
    destruct (matches s) eqn:Em; [destruct (bool_decide_reflect (s ∈ matching)) as [Hin | Hin] |].
    + destruct (IH matching Hnd) as [N M]. split; [exact N |].
      intros x. rewrite M, elem_of_cons. split; [tauto |].
      intros [Hx | [[-> | Hx] Hm]]; tauto.
    + destruct (IH (matching ++ [s])%list) as [N M].
      { apply NoDup_app. split; [exact Hnd |]. split; [| apply NoDup_singleton].
        intros y Hy Hy'. apply list_elem_of_singleton in Hy'. subst y. contradiction. }
      split; [exact N |].
      intros x. rewrite M, elem_of_app, list_elem_of_singleton, elem_of_cons. split.
      * intros [[Hx | ->] | [Hx Hm]]; tauto.
      * intros [Hx | [[-> | Hx] Hm]]; tauto.
    + destruct (IH matching Hnd) as [N M]. split; [exact N |].
      intros x. rewrite M, elem_of_cons. split; [tauto |].
      intros [Hx | [[-> | Hx] Hm]]; [tauto | congruence | tauto].
Qed.

Lemma add_criteria_spec {A : Type} `{EqDecision A}
    (matches : string -> A -> bool) (all_stores : list A)
    (criteria : option (list string)) :
  forall matching,
    NoDup matching ->
    NoDup (add_criteria matches all_stores criteria matching) /\
    forall x, x ∈ add_criteria matches all_stores criteria matching <->
              x ∈ matching \/
              (x ∈ all_stores /\ exists c, c ∈ default [] criteria /\ matches c x = true).
Proof.
  assert (forall cs matching,
            NoDup matching ->
            NoDup (fold_left (fun m c => add_matching (matches c) all_stores m) cs matching) /\
            forall x, x ∈ fold_left (fun m c => add_matching (matches c) all_stores m)
                            cs matching <->
                      x ∈ matching \/
                      (x ∈ all_stores /\ exists c, c ∈ cs /\ matches c x = true)) as Hfold.
  { induction cs as [| c cs IH]; intros matching Hnd.
    - cbn. split; [exact Hnd |]. intros x. split; [tauto |].
      intros [Hx | (_ & c & Hc & _)]; [exact Hx |].
      apply elem_of_nil in Hc. contradiction.
    - cbn [fold_left].
      destruct (add_matching_spec (matches c) all_stores matching Hnd) as [N1 M1].
      destruct (IH _ N1) as [N2 M2]. split; [exact N2 |].
      intros x. rewrite M2, M1. split.
      + intros [[Hx | [Hx Hm]] | (Hx & c' & Hc' & Hm)]; [tauto | |].
        * right. split; [exact Hx |]. exists c. split; [apply elem_of_cons; tauto | exact Hm].
        * right. split; [exact Hx |]. exists c'. split; [apply elem_of_cons; tauto | exact Hm].
      + intros [Hx | (Hx & c' & Hc' & Hm)]; [tauto |].
        apply elem_of_cons in Hc'. destruct Hc' as [-> | Hc']; [tauto |].
        right. split; [exact Hx |]. exists c'. tauto. }
  intros matching Hnd. unfold add_criteria.
  destruct criteria as [[| c cs] |]; cbn [default].
  - split; [exact Hnd |]. intros x. split; [tauto |].
    intros [Hx | (_ & c & Hc & _)]; [exact Hx |].
    apply elem_of_nil in Hc. contradiction.
  - apply Hfold. exact Hnd.
  - split; [exact Hnd |]. intros x. split; [tauto |].
    intros [Hx | (_ & c & Hc & _)]; [exact Hx |].
    apply elem_of_nil in Hc. contradiction.
Qed.

Lemma id_matches_prefix {A : Type} (get_id : A -> option string)
    (store_id : string) (store : A) :
  id_matches get_id store_id store = true <->
  exists rest, get (get_id store) "" = store_id ++ rest.
Proof.
  unfold id_matches, PyText.startswith.
  rewrite orb_true_iff, prefix_app, bool_decide_eq_true. split.
  - intros [Hp | E]; [exact Hp |]. rewrite E. cbn [get]. exists "".
    clear. induction store_id as [| c s IH]; [reflexivity | rewrite append_cons; congruence].
  - intros Hp. left. exact Hp.
Qed.

Lemma find_stores_by_criteria_members {A : Type} `{EqDecision A}
    (get_id get_name : A -> option string) (all_stores : list A)
    (store_ids store_names : option (list string)) :
  let found :=
    find_stores_by_criteria get_id get_name all_stores store_ids store_names false in
  NoDup found /\
  forall store,
    store ∈ found <->
    store ∈ all_stores /\
    ((exists store_id rest,
        store_id ∈ default [] store_ids /\
        get (get_id store) "" = store_id ++ rest) \/
     (exists store_name before after,
        store_name ∈ default [] store_names /\
        PyText.lower (get (get_name store) "")
          = before ++ PyText.lower store_name ++ after)).
Proof.
  cbv zeta. unfold find_stores_by_criteria.
  destruct (add_criteria_spec (id_matches get_id) all_stores store_ids [])
    as [N1 M1]; [apply NoDup_nil; exact I |].
  destruct (add_criteria_spec (name_matches get_name) all_stores store_names _ N1)
    as [N2 M2].
  split; [exact N2 |].
  intros store. rewrite M2, M1. split.
  - intros [[Hx | (Hx & c & Hc & Hm)] | (Hx & c & Hc & Hm)].
    + apply elem_of_nil in Hx. contradiction.
    + split; [exact Hx |]. left.
      apply id_matches_prefix in Hm. destruct Hm as [rest Hr]. eauto.
    + split; [exact Hx |]. right.
      apply contains_app in Hm. destruct Hm as (a & b & E). eauto.
  - intros [Hx [(c & rest & Hc & E) | (c & a & b & Hc & E)]].
    + left. right. split; [exact Hx |]. exists c. split; [exact Hc |].
      apply id_matches_prefix. eauto.
    + right. split; [exact Hx |]. exists c. split; [exact Hc |].
      apply contains_app. eauto.
Qed.

(** X5. Without the [--all] flag, [find_stores_by_criteria] returns each
    store at most once, and a store is returned iff it is one of
    [all_stores] and either its id starts with one of the given ids or
    its name contains one of the given names, case ignored. *)
Theorem find_stores_by_criteria_exact {A : Type} `{EqDecision A}
    (get_id get_name : A -> option string) (all_stores : list A)
    (store_ids store_names : option (list string)) :
  let found :=
    find_stores_by_criteria get_id get_name all_stores store_ids store_names false in
  NoDup found /\
  forall store,
    store ∈ found <->
    store ∈ all_stores /\
    ((exists store_id rest,
        store_id ∈ default [] store_ids /\
        get (get_id store) "" = store_id ++ rest) \/
     (exists store_name before after,
        store_name ∈ default [] store_names /\
        PyText.lower (get (get_name store) "")
          = before ++ PyText.lower store_name ++ after)).
Proof. apply find_stores_by_criteria_members. Qed.

(** X6. The edges of [find_stores_by_criteria]: with the flag it returns
    [all_stores] itself, duplicates included; without flag and criteria it
    returns nothing; an empty id matches every store. *)
Theorem find_stores_by_criteria_edges {A : Type} `{EqDecision A}
    (get_id get_name : A -> option string) (all_stores : list A)
    (store_ids store_names : option (list string)) :
  find_stores_by_criteria get_id get_name all_stores store_ids store_names true
    = all_stores /\
  (default [] store_ids = [] -> default [] store_names = [] ->
   find_stores_by_criteria get_id get_name all_stores store_ids store_names false = []) /\
  ("" ∈ default [] store_ids ->
   forall store,
     store ∈ all_stores ->
     store ∈ find_stores_by_criteria get_id get_name all_stores store_ids
               store_names false).
Proof.
  split; [reflexivity |]. split.
  - intros Hi Hn.
    destruct store_ids as [[| ? ?] |]; try discriminate Hi;
      destruct store_names as [[| ? ?] |]; try discriminate Hn; reflexivity.
  - intros Hempty store Hin.
    apply (find_stores_by_criteria_members get_id get_name).
    split; [exact Hin |]. left. exists "", (get (get_id store) "").
    split; [exact Hempty | reflexivity].
Qed.

(** ** rstrip and load_configuration *)

Lemma append_nil_r (s : string) : s ++ "" = s.
Proof. induction s as [| c s IH]; [reflexivity | rewrite append_cons, IH; reflexivity]. Qed.

Lemma rstrip_slash_spec (s : string) :
  (exists n, s = PyText.rstrip_slash s ++ PyStr.repeat_str "/" n) /\
  (forall body, PyText.rstrip_slash s <> body ++ "/").
Proof.
  unfold PyText.rstrip_slash.
  induction s as [| c rest [[n Hn] Hend]].
  - split; [exists 0%nat; reflexivity |].
    intros [| d body] E; [discriminate E | rewrite append_cons in E; discriminate E].
  - cbn [PyText.rstrip_with].
    destruct (PyText.rstrip_with _ rest) as [| d kept] eqn:Ek.
    + destruct (Ascii.eqb_spec c "/") as [-> | Hc].
      * split.
        -- exists (S n). cbn [PyStr.repeat_str]. rewrite Hn at 1. reflexivity.
        -- intros [| e body] E; [discriminate E | rewrite append_cons in E; discriminate E].
      * split.
        -- exists n. rewrite append_cons. rewrite Hn at 1. reflexivity.
        -- intros [| e body] E.
           ++ injection E as E. contradiction.
           ++ rewrite append_cons in E. injection E as _ E.
              destruct body; discriminate E.
    + split.
      * exists n. rewrite append_cons. rewrite Hn at 1. reflexivity.
      * intros [| e body] E.
        -- discriminate E.
        -- rewrite append_cons in E. injection E as _ E. exact (Hend body E).
Qed.

(** X7. [load_configuration] returns iff both variables are set and
    non-empty; the key is returned as it is and the base URL without its
    trailing slashes, nothing being logged.  Otherwise it exits with code
    1 after two error lines that name the missing variable, the base URL
    being checked first. *)
Theorem load_configuration_outcome
    (FLOWISE_BASE_URL FLOWISE_API_KEY : option string) (w : World) :
  let r := load_configuration FLOWISE_BASE_URL FLOWISE_API_KEY w in
  match r.1 with
  | Returned (base_url, api_key) =>
      PyStr.truthy FLOWISE_BASE_URL = true /\
      FLOWISE_API_KEY = Some api_key /\ api_key <> "" /\
      (exists n, FLOWISE_BASE_URL = Some (base_url ++ PyStr.repeat_str "/" n)) /\
      (forall body, base_url <> body ++ "/") /\
      r.2 = w
  | SystemExit code =>
      code = 1 /\
      exists variable,
        r.2 = logging
                [ (ERROR, "Error: " ++ variable ++ " environment variable is not set");
                  (ERROR, "Please set it in your .env file or environment") ] w /\
        (PyStr.truthy FLOWISE_BASE_URL = false /\ variable = "FLOWISE_BASE_URL" \/
         PyStr.truthy FLOWISE_BASE_URL = true /\
         PyStr.truthy FLOWISE_API_KEY = false /\ variable = "FLOWISE_API_KEY")
  end.
Proof.
  cbv zeta. unfold load_configuration.
  destruct (PyStr.truthy FLOWISE_BASE_URL) eqn:Eb; cbn [negb].
  - destruct (PyStr.truthy FLOWISE_API_KEY) eqn:Ek; cbn [negb].
    + cbn [mret M_ret fst snd].
      destruct FLOWISE_BASE_URL as [b |]; [| discriminate Eb].
      destruct FLOWISE_API_KEY as [[| c k] |]; try discriminate Ek.
      destruct (rstrip_slash_spec b) as [[n Hn] Hend]. cbn [get].
      repeat split; try assumption; try discriminate.
      exists n. f_equal. exact Hn.
    + run_world. split; [reflexivity |]. exists "FLOWISE_API_KEY".
      split; [unfold logging; rewrite <- app_assoc; reflexivity | tauto].
  - run_world. split; [reflexivity |]. exists "FLOWISE_BASE_URL".
    split; [unfold logging; rewrite <- app_assoc; reflexivity | tauto].
Qed.

(** ** Filtering in the two scripts *)

(** X8. [filter_refreshable_stores] works store by store: it distributes
    over concatenation, filtering twice changes nothing, and it never
    returns more stores than it was given. *)
Theorem filter_refreshable_stores_compositional (xs ys : list DocumentStore) :
  filter_refreshable_stores (xs ++ ys) =
    (filter_refreshable_stores xs ++ filter_refreshable_stores ys)%list /\
  filter_refreshable_stores (filter_refreshable_stores xs)
    = filter_refreshable_stores xs /\
  (length (filter_refreshable_stores xs) <= length xs)%nat /\
  filter_refreshable_stores [] = [].
Proof.
  unfold filter_refreshable_stores. rewrite !fold_filter_step. cbn [app].
  split; [apply filter_app |]. split; [| split; [apply length_filter | reflexivity]].
  induction xs as [| x xs IH]; [reflexivity |].
  rewrite filter_cons. destruct (decide (store_bucket x = Refreshable)) as [Hx | Hx].
  - rewrite filter_cons, decide_True by exact Hx. f_equal. exact IH.
  - exact IH.
Qed.

Lemma split_targets_fold (targets : list DocumentStore) : forall acc,
  fold_left
    (fun '(refreshable_stores, skipped_stores) store =>
       let status := PyStr.upper (get (ds_status store) "UNKNOWN") in
       if bool_decide (status ∈ REFRESHABLE_STATUSES) then
         ((refreshable_stores ++ [store])%list, skipped_stores)
       else (refreshable_stores, (skipped_stores ++ [(store, status)])%list))
    targets acc
  = ((acc.1 ++ filter (fun s => store_bucket s = Refreshable) targets)%list,
     (acc.2 ++ map (fun s => (s, PyStr.upper (get (ds_status s) "UNKNOWN")))
                 (filter (fun s => store_bucket s <> Refreshable) targets))%list).
Proof.
  induction targets as [| s rest IH]; intros [r k].
  - cbn. rewrite !app_nil_r. reflexivity.
  - cbn [fold_left]. rewrite !filter_cons. cbv zeta.
    assert (bool_decide (PyStr.upper (get (ds_status s) "UNKNOWN") ∈ REFRESHABLE_STATUSES)
            = bool_decide (store_bucket s = Refreshable)) as E.
    { apply bool_decide_ext. unfold store_bucket.
      rewrite in_refreshable, classify_refreshable. reflexivity. }
    rewrite E. destruct (decide (store_bucket s = Refreshable)) as [Hs | Hs].
    + rewrite bool_decide_eq_true_2 by exact Hs. rewrite decide_False by tauto.
      rewrite IH. cbn [fst snd]. rewrite <- app_assoc. reflexivity.
    + rewrite bool_decide_eq_false_2 by exact Hs. rewrite decide_True by exact Hs.
      rewrite IH. cbn [fst snd map]. rewrite <- app_assoc. reflexivity.
Qed.

(** X9. The automatic script sorts its targets exactly as the interactive
    one filters them: the stores it refreshes are
    [filter_refreshable_stores] of the targets, the ones it skips are all
    the others, in order, each with its upper-cased status. *)
Theorem split_targets_agrees_with_filter (target_stores : list DocumentStore) :
  (split_targets target_stores).1 = filter_refreshable_stores target_stores /\
  (split_targets target_stores).2 =
    map (fun s => (s, PyStr.upper (get (ds_status s) "UNKNOWN")))
        (filter (fun s => store_bucket s <> Refreshable) target_stores) /\
  (length (split_targets target_stores).1 + length (split_targets target_stores).2
   = length target_stores)%nat.
Proof.
  unfold split_targets. rewrite split_targets_fold. cbn [fst snd app].
  unfold filter_refreshable_stores. rewrite fold_filter_step. cbn [app].
  split; [reflexivity |]. split; [reflexivity |].
  rewrite length_map. clear.
  induction target_stores as [| s rest IH]; [reflexivity |].
  rewrite !filter_cons.
  destruct (decide (store_bucket s = Refreshable)) as [Hs | Hs].
  - rewrite decide_False by tauto. cbn [length]. lia.
  - rewrite decide_True by exact Hs. cbn [length]. lia.
Qed.

(** ** More on the monitor loop *)

Lemma default_last_cons {A} (a c : A) (l : list A) :
  default a (last (c :: l)) = default c (last l).
Proof.
  destruct l as [| x l]; [reflexivity |].
  rewrite last_cons.
  destruct (last (x :: l)) eqn:E; [reflexivity |].
  rewrite last_cons in E. destruct (last l); discriminate E.
Qed.

Section LoopExtras.

Variable env : Env.
Variable cfg : Config.
Variables base_url api_key : string.

#[local] Abbreviation req_of m := (status_request base_url api_key (store_id m)).
#[local] Abbreviation answer := (answer_in env base_url api_key).
#[local] Abbreviation cycle := (poll_cycle env cfg base_url api_key).
#[local] Abbreviation loop n := (monitor_loop env cfg n base_url api_key).
#[local] Abbreviation plog n := (poll_log env cfg n base_url api_key).
#[local] Abbreviation quiet := (keeps_polling env cfg base_url api_key).

(** What a transition never touches, and what only a break touches. *)
Lemma transition_keeps now a m :
  let r := transition cfg now a m in
  store r.2 = store m /\ store_name r.2 = store_name m /\
  initial_chunks r.2 = initial_chunks m /\
  iteration_count m <= iteration_count r.2 /\
  (r.1 = Continue ->
   completed r.2 = completed m /\ error r.2 = error m /\
   final_status r.2 = final_status m).
Proof.
  cbv zeta. unfold transition.
  destruct (timed_out cfg m now).
  - cbn. repeat split; try lia; congruence.
  - destruct a as [d |]; [| cbn; repeat split; lia].
    destruct (store_bucket d); cbn; repeat split; try lia; congruence.
Qed.

Lemma monitor_loop_keeps n : forall m w,
  let r := loop n m w in
  store r.1.2 = store m /\ store_id r.1.2 = store_id m /\
  store_name r.1.2 = store_name m /\ start_time r.1.2 = start_time m /\
  initial_chunks r.1.2 = initial_chunks m /\
  iteration_count m <= iteration_count r.1.2 /\
  (r.1.1 = Continue ->
   completed r.1.2 = completed m /\ error r.1.2 = error m /\
   final_status r.1.2 = final_status m).
Proof.
  induction n as [| n IH]; intros m w; cbv zeta.
  - cbn. repeat split; lia.
  - rewrite monitor_loop_S.
    destruct (poll_cycle_spec env cfg base_url api_key m w) as (Ht & _).
    cbv zeta in Ht.
    pose proof (transition_keeps (env_time env (clock_reads w)) (answer m w 0) m) as K.
    pose proof (transition_frame cfg (env_time env (clock_reads w)) (answer m w 0) m) as F.
    cbv zeta in K. rewrite <- Ht in K, F.
    destruct K as (K1 & K2 & K3 & K4 & K5). destruct F as [F1 F2].
    destruct ((cycle m w).1.1) eqn:E.
    + repeat split; try assumption; congruence.
    + specialize (IH (cycle m w).1.2 (cycle m w).2). cbv zeta in IH.
      destruct IH as (I1 & I2 & I3 & I4 & I5 & I6 & I7).
      destruct (K5 eq_refl) as (C1 & C2 & C3).
      repeat split; try congruence; try lia.
      all: match goal with
           | Hc : _ = Continue |- _ => destruct (I7 Hc) as (D1 & D2 & D3); congruence
           end.
Qed.

(** The requests and sleeps of any run of the loop. *)
Lemma monitor_loop_traffic n : forall m w,
  exists g z,
    requests (loop n m w).2 = (requests w ++ repeat (req_of m) g)%list /\
    sleeps (loop n m w).2 = (sleeps w ++ repeat (STATUS_CHECK_INTERVAL cfg) z)%list /\
    (z <= g <= z + 1)%nat /\ (g <= n)%nat /\
    (clock_reads w + g <= clock_reads (loop n m w).2 <= clock_reads w + g + 1)%nat /\
    (clock_reads (loop n m w).2 <= clock_reads w + n)%nat.
Proof.
  induction n as [| n IH]; intros m w.
  - exists 0%nat, 0%nat. cbn. rewrite !app_nil_r. repeat split; lia.
  - rewrite monitor_loop_S.
    destruct (poll_cycle_spec env cfg base_url api_key m w) as (Ht & Hc & Hr & Hs).
    cbv zeta in Ht. unfold transition in Ht.
    destruct (timed_out cfg m _).
    + rewrite Ht in Hs |- *. cbn [fst snd] in *.
      exists 0%nat, 0%nat. cbn [repeat]. rewrite Hr, Hs, Hc. repeat split; lia.
    + destruct ((cycle m w).1.1) eqn:E.
      * exists 1%nat, 0%nat. cbn [repeat].
        rewrite Hr, Hs, Hc. repeat split; lia.
      * destruct (IH (cycle m w).1.2 (cycle m w).2)
          as (g & z & Gr & Gs & Gz & Gn & Gc & Gc').
        assert (store_id (cycle m w).1.2 = store_id m) as Hid.
        { destruct (transition_frame cfg (env_time env (clock_reads w))
                      (answer m w 0) m) as [_ F].
          destruct (answer m w 0) as [d |];
            [destruct (store_bucket d) |]; rewrite Ht; reflexivity. }
        exists (S g), (S z). rewrite Gr, Gs, Hr, Hs, Hid. cbn [repeat].
        rewrite <- !app_assoc. cbn [app]. rewrite Hc in Gc, Gc'.
        repeat split; lia.
Qed.

Lemma monitor_loop_last_chunks n : forall m w,
  last_chunks (loop n m w).1.2 =
    default (last_chunks m) (last (map fst (plog n m w))).
Proof.
  induction n as [| n IH]; intros m w.
  - reflexivity.
  - rewrite monitor_loop_S. cbn [poll_log]. cbv zeta.
    destruct (poll_cycle_spec env cfg base_url api_key m w) as (Ht & _).
    cbv zeta in Ht. unfold transition in Ht.
    destruct (cycle m w) as [[c m1] w1]. cbn [fst snd] in *.
    destruct (timed_out cfg m _).
    + injection Ht as -> ->. reflexivity.
    + destruct (answer m w 0) as [d |].
      * destruct (store_bucket d); injection Ht as -> ->; cbn [app map fst];
          try reflexivity; rewrite IH, default_last_cons; reflexivity.
      * injection Ht as -> ->. cbn [app]. apply IH.
Qed.

End LoopExtras.

(** X10. The loop completes at the first refreshable answer: if the first
    [n] cycles keep polling and cycle [n], not past the timeout, fetches
    a store whose status is UPSERTED (in any case), then the loop breaks in
    that cycle, for every fuel above [n], with the monitor completed, the
    final status UPSERTED, no error added, the chunk count of that fetch
    recorded, [n + 1] GETs sent and only [n] sleeps. *)
Theorem monitor_completes_at_first_refreshable
    (env : Env) (cfg : Config) (base_url api_key : string)
    (m : RefreshMonitor) (w : World) (n : nat) (d : DocumentStore) :
  (forall j, (j < n)%nat -> keeps_polling env cfg base_url api_key m w j) ->
  timed_out cfg m (env_time env (clock_reads w + n)) = false ->
  answer_in env base_url api_key m w n = Some d ->
  store_bucket d = Refreshable ->
  exists mn m' w',
    (monitor_loop env cfg n base_url api_key m w).1 = (Continue, mn) /\
    (forall extra,
       monitor_loop env cfg (S n + extra) base_url api_key m w = ((Break, m'), w')) /\
    completed m' = true /\ final_status m' = Some "UPSERTED" /\
    status m' = "UPSERTED" /\ error m' = error m /\
    iteration_count m' = iteration_count mn + 1 /\
    last_chunks m' = get (ds_totalChunks d) 0 /\
    requests w' =
      (requests w ++ repeat (status_request base_url api_key (store_id m)) (S n))%list /\
    sleeps w' = (sleeps w ++ repeat (STATUS_CHECK_INTERVAL cfg) n)%list.
Proof.
  intros Hq Hto Ha Hb.
  destruct (monitor_loop_continue env cfg base_url api_key n m w Hq)
    as (mn & wn & E & Gc & Gr & Gs & G1 & G2 & G3 & G4 & G5).
  destruct (poll_cycle_spec env cfg base_url api_key mn wn) as (Ht & _ & Hr & Hs).
  cbv zeta in Ht. unfold transition in Ht.
  assert (answer_in env base_url api_key mn wn 0 = Some d) as Ha'.
  { unfold answer_in in *. rewrite Gr, G2, length_app, repeat_length, Nat.add_0_r.
    exact Ha. }
  rewrite (timed_out_frame cfg m mn) in Ht, Hr by exact G1.
  rewrite Gc, Hto in Ht, Hr. rewrite Ha', Hb in Ht.
  assert (PyStr.upper (get (ds_status d) "UNKNOWN") = "UPSERTED") as Hu
    by (apply classify_refreshable; exact Hb).
  rewrite Hu in Ht. rewrite Ht in Hs. cbn [fst snd] in Hs.
  exists mn, (complete_with "UPSERTED" (polled d mn)),
    (poll_cycle env cfg base_url api_key mn wn).2.
  split; [rewrite E; reflexivity |]. split.
  - intros extra. change (S n + extra)%nat with (S (n + extra)).
    replace (S (n + extra)) with (n + S extra)%nat by lia.
    rewrite monitor_loop_add, E. cbn [fst snd].
    rewrite monitor_loop_S, Ht. cbn [fst].
    destruct (poll_cycle env cfg base_url api_key mn wn) as [p wp].
    cbn [fst snd] in *. rewrite Ht. reflexivity.
  - rewrite Hr, Hs, Gr, Gs, G2, app_nil_r, <- app_assoc.
    replace (S n) with (n + 1)%nat by lia. rewrite repeat_app.
    repeat split; try reflexivity.
    + cbn. rewrite Hu. reflexivity.
    + cbn. exact G4.
Qed.

Lemma monitor_completes_at_first_refreshable_witness :
  exists mn m' w',
    (monitor_loop Samples.env_flaky default_config 2 "http://h" "KEY"
       Samples.monitor0 SampleWorlds.triggered).1 = (Continue, mn) /\
    (forall extra,
       monitor_loop Samples.env_flaky default_config (3 + extra) "http://h" "KEY"
         Samples.monitor0 SampleWorlds.triggered = ((Break, m'), w')) /\
    completed m' = true /\ final_status m' = Some "UPSERTED" /\
    status m' = "UPSERTED" /\ error m' = None /\
    iteration_count m' = iteration_count mn + 1 /\
    last_chunks m' = 1234 /\
    length (requests w') = 4%nat /\ sleeps w' = [15; 15].
Proof.
  destruct (monitor_completes_at_first_refreshable Samples.env_flaky default_config
              "http://h" "KEY" Samples.monitor0 SampleWorlds.triggered 2
              (Samples.docs "Upserted" 1234))
    as (mn & m' & w' & H1 & H2 & H3 & H4 & H5 & H6 & H7 & H8 & H9 & H10).
  - intros j Hj. destruct j as [| [| j]]; [| | lia].
    + split; [reflexivity | exact I].
    + split; [reflexivity | vm_compute; discriminate].
  - reflexivity.
  - reflexivity.
  - reflexivity.
  - exists mn, m', w'. rewrite H9, H10.
    repeat split; assumption.
Defined.

(** X11. The monitor cannot hang past the timeout: if the clock reading of
    cycle [n] (counted from the first poll) is more than
    [MAX_REFRESH_TIMEOUT] after the start, [refresh_and_monitor] returns a
    completed monitor, the same one for every fuel above [n]. *)
Theorem refresh_and_monitor_returns_by_timeout
    (env : Env) (cfg : Config) (base_url api_key : string)
    (s : DocumentStore) (w : World) (n : nat) :
  (inject_Z (MAX_REFRESH_TIMEOUT cfg)
   < env_time env (S (clock_reads w) + n) - env_time env (clock_reads w))%Q ->
  exists m w',
    completed m = true /\
    forall fuel, (n < fuel)%nat ->
      refresh_and_monitor env cfg fuel base_url api_key s w = (Some m, w').
Proof.
  intros Hlate.
  pose proof (fun fuel => refresh_and_monitor_unfold env cfg base_url api_key fuel s w)
    as Hu.
  change (new_monitor env s w)
    with (mkMonitor s (ds_id s) (get (ds_name s) "Unnamed Store")
            (env_time env (clock_reads w)) "STARTING" false None None 0 0
            (get (ds_totalChunks s) 0),
          mkWorld (S (clock_reads w)) (requests w) (sleeps w) (stdout w)
            (logged w)) in Hu.
  cbv zeta in Hu. cbn [fst snd store_id] in Hu.
  set (m0 := mkMonitor s (ds_id s) _ _ _ _ _ _ _ _ _) in *.
  destruct (trigger_refresh_frame env base_url api_key (ds_id s)
              (mkWorld (S (clock_reads w)) (requests w) (sleeps w) (stdout w)
                 (logged w))) as (Fc & _).
  destruct (trigger_refresh env base_url api_key (ds_id s) _) as [ok w1].
  cbn [fst snd clock_reads] in *. destruct ok.
  - assert (timed_out cfg m0 (env_time env (clock_reads (header m0 w1) + n)) = true)
      as Hto.
    { apply timed_out_iff. cbn [header clock_reads]. rewrite Fc. exact Hlate. }
    pose proof (monitor_loop_timeout_breaks env cfg base_url api_key n m0
                  (header m0 w1) Hto) as Hb.
    destruct (monitor_loop env cfg (S n) base_url api_key m0 (header m0 w1))
      as [[c m1] w2] eqn:El. cbn [fst] in Hb. subst c.
    destruct (monitor_loop_break env cfg base_url api_key _ _ _ _ _ El) as [Hc _].
    exists m1, w2. split; [exact Hc |].
    intros fuel Hf. rewrite Hu, monitor_refresh_progress_spec. cbv zeta.
    replace fuel with (S n + (fuel - S n))%nat by lia.
    rewrite monitor_loop_add, El. reflexivity.
  - eexists _, w1. split; [| intros fuel _; apply Hu]. reflexivity.
Qed.

Lemma refresh_and_monitor_returns_by_timeout_witness :
  exists m w',
    completed m = true /\
    forall fuel, (2 < fuel)%nat ->
      refresh_and_monitor Samples.env_busy Samples.cfg_unit fuel "http://h" "KEY"
        (Samples.docs "UPSERTED" 90) world0 = (Some m, w').
Proof.
  apply (refresh_and_monitor_returns_by_timeout Samples.env_busy Samples.cfg_unit
           "http://h" "KEY" (Samples.docs "UPSERTED" 90) world0 2).
  reflexivity.
Defined.

(** X12. Polling never changes who the monitor is: in every run of the loop
    the store, its id and name, the start time and the initial chunk
    count stay as they were and the iteration count never decreases; as
    long as the loop has not broken, [completed], [error] and
    [final_status] are untouched too. *)
Theorem monitor_loop_keeps_identity
    (env : Env) (cfg : Config) (fuel : nat) (base_url api_key : string)
    (m : RefreshMonitor) (w : World) :
  let r := monitor_loop env cfg fuel base_url api_key m w in
  store r.1.2 = store m /\ store_id r.1.2 = store_id m /\
  store_name r.1.2 = store_name m /\ start_time r.1.2 = start_time m /\
  initial_chunks r.1.2 = initial_chunks m /\
  iteration_count m <= iteration_count r.1.2 /\
  (r.1.1 = Continue ->
   completed r.1.2 = completed m /\ error r.1.2 = error m /\
   final_status r.1.2 = final_status m).
Proof. apply monitor_loop_keeps. Qed.

(** X13. [last_chunks], which the summary prints as the final chunk count,
    is the count read by the last successful poll of the run, and is left
    as it was when no poll succeeded. *)
Theorem last_chunks_is_last_successful_poll
    (env : Env) (cfg : Config) (fuel : nat) (base_url api_key : string)
    (m : RefreshMonitor) (w : World) :
  last_chunks (monitor_loop env cfg fuel base_url api_key m w).1.2 =
    default (last_chunks m)
            (last (map fst (poll_log env cfg fuel base_url api_key m w))).
Proof. apply monitor_loop_last_chunks. Qed.

(** X14. The requests of a whole [refresh_and_monitor] run: first between
    one and five of the refresh variants, in order, then only GETs of the
    store's status, at most one per unit of fuel; every one of them
    carries the two headers of [get_headers].  Every sleep lasts
    [STATUS_CHECK_INTERVAL], and there is one sleep per GET, but for a
    last GET that ends the loop. *)
Theorem refresh_and_monitor_traffic
    (env : Env) (cfg : Config) (fuel : nat) (base_url api_key : string)
    (s : DocumentStore) (w : World) :
  let r := refresh_and_monitor env cfg fuel base_url api_key s w in
  exists n g z,
    (1 <= n <= 5)%nat /\ (g <= fuel)%nat /\ (z <= g <= z + 1)%nat /\
    requests r.2 =
      (requests w ++ take n (variant_requests base_url api_key (ds_id s))
         ++ repeat (status_request base_url api_key (ds_id s)) g)%list /\
    sleeps r.2 = (sleeps w ++ repeat (STATUS_CHECK_INTERVAL cfg) z)%list /\
    Forall (fun q => req_headers q = get_headers api_key)
           (drop (length (requests w)) (requests r.2)) /\
    (clock_reads r.2 <= S (clock_reads w) + fuel)%nat.
Proof.
  cbv zeta. rewrite refresh_and_monitor_unfold.
  change (new_monitor env s w)
    with (mkMonitor s (ds_id s) (get (ds_name s) "Unnamed Store")
            (env_time env (clock_reads w)) "STARTING" false None None 0 0
            (get (ds_totalChunks s) 0),
          mkWorld (S (clock_reads w)) (requests w) (sleeps w) (stdout w)
            (logged w)).
  cbv zeta. cbn [fst snd store_id].
  set (m0 := mkMonitor s (ds_id s) _ _ _ _ _ _ _ _ _).
  set (w0 := mkWorld (S (clock_reads w)) _ _ _ _).
  assert (exists n, (1 <= n <= 5)%nat /\
            requests (trigger_refresh env base_url api_key (ds_id s) w0).2 =
              (requests w ++ take n (variant_requests base_url api_key (ds_id s)))%list /\
            sleeps (trigger_refresh env base_url api_key (ds_id s) w0).2 = sleeps w /\
            clock_reads (trigger_refresh env base_url api_key (ds_id s) w0).2
              = S (clock_reads w)) as (n & Hn & Tr & Ts & Tc).
  { destruct (trigger_refresh_cases env base_url api_key (ds_id s) w0)
      as [(j & Hj & _ & _ & E) | (_ & _ & E)]; rewrite E.
    - exists (S j). repeat split; lia.
    - destruct (error_of _) as [[st msg] hs]. exists 5%nat. repeat split; lia. }
  assert (forall g,
            Forall (fun q => req_headers q = get_headers api_key)
              (take n (variant_requests base_url api_key (ds_id s))
                 ++ repeat (status_request base_url api_key (ds_id s)) g)) as Hh.
  { intros g. apply Forall_app. split.
    - apply Forall_take. unfold variant_requests. repeat constructor.
    - apply List.Forall_forall. intros q Hq. apply repeat_spec in Hq.
      subst q. reflexivity. }
  destruct (trigger_refresh env base_url api_key (ds_id s) w0) as [ok w1].
  cbn [fst snd] in *. destruct ok.
  - rewrite monitor_refresh_progress_spec. cbv zeta.
    destruct (monitor_loop_traffic env cfg base_url api_key fuel m0 (header m0 w1))
      as (g & z & Gr & Gs & Gz & Gn & _ & Gc).
    cbn [header requests sleeps clock_reads] in Gr, Gs, Gc.
    exists n, g, z. cbn [snd]. rewrite Gr, Gs, Tr, Ts, <- app_assoc, drop_app_length.
    repeat split; try lia. apply Hh.
  - exists n, 0%nat, 0%nat. cbn [snd repeat]. rewrite Tr, Ts, !app_nil_r.
    rewrite drop_app_length. repeat split; try lia.
    specialize (Hh 0%nat). cbn [repeat] in Hh. rewrite app_nil_r in Hh. exact Hh.
Qed.

(** X15. A store that reports a waiting or unknown status, or none at all,
    is polled on like a busy one: as long as no cycle starts past the
    timeout and no status is UPSERTED, the loop is still turning after any
    number of cycles, having sent one status GET and slept once per
    cycle, and the monitor is neither completed nor failed. *)
Theorem waiting_and_unknown_keep_polling
    (env : Env) (cfg : Config) (base_url api_key : string)
    (m : RefreshMonitor) (w : World) (n : nat) :
  (forall j, (j < n)%nat ->
     ~ (inject_Z (MAX_REFRESH_TIMEOUT cfg) < elapsed_in env m w j)%Q /\
     forall d, answer_in env base_url api_key m w j = Some d ->
               store_bucket d = Busy \/ store_bucket d = Waiting \/
               store_bucket d = Unknown) ->
  exists m' w',
    monitor_loop env cfg n base_url api_key m w = ((Continue, m'), w') /\
    completed m' = completed m /\ error m' = error m /\
    final_status m' = final_status m /\
    requests w' =
      (requests w ++ repeat (status_request base_url api_key (store_id m)) n)%list /\
    sleeps w' = (sleeps w ++ repeat (STATUS_CHECK_INTERVAL cfg) n)%list.
Proof.
  intros Hq.
  destruct (monitor_loop_continue env cfg base_url api_key n m w)
    as (m' & w' & E & _ & Gr & Gs & _ & _ & G3 & G4 & G5).
  { intros j Hj. destruct (Hq j Hj) as [Hnot Hb].
    split; [apply timed_out_false_iff; exact Hnot |].
    destruct (answer_in env base_url api_key m w j) as [d |]; [| exact I].
    destruct (Hb d eq_refl) as [-> | [-> | ->]]; discriminate. }
  exists m', w'. repeat split; assumption.
Qed.

Lemma waiting_and_unknown_keep_polling_witness :
  exists m' w',
    monitor_loop MoreSamples.env_stale default_config 3 "http://h" "KEY"
      Samples.monitor0 SampleWorlds.triggered = ((Continue, m'), w') /\
    completed m' = false /\ error m' = None /\ final_status m' = None /\
    requests w' =
      (requests SampleWorlds.triggered
         ++ repeat (status_request "http://h" "KEY" (Some "id1")) 3)%list /\
    sleeps w' = [15; 15; 15].
Proof.
  apply (waiting_and_unknown_keep_polling MoreSamples.env_stale default_config
           "http://h" "KEY" Samples.monitor0 SampleWorlds.triggered 3).
  intros j Hj. destruct j as [| [| [| j]]]; [| | | lia].
  - split; [vm_compute; discriminate |].
    intros d Hd. injection Hd as <-. right. left. reflexivity.
  - split; [vm_compute; discriminate |].
    intros d Hd. injection Hd as <-. right. right. reflexivity.
  - split; [vm_compute; discriminate |].
    intros d Hd. injection Hd as <-. right. right. reflexivity.
Defined.


(** ** display_summary *)

Lemma summary_loop_output (env : Env) (monitors : list RefreshMonitor) :
  forall successful failed w,
    let r := summary_loop env monitors successful failed w in
    clock_reads r.2 = (clock_reads w + length monitors)%nat /\
    requests r.2 = requests w /\ sleeps r.2 = sleeps w /\ logged r.2 = logged w /\
    exists body, stdout r.2 = (stdout w ++ body)%list /\
                 length body = (8 * length monitors)%nat.
Proof.
  induction monitors as [| m rest IH]; intros successful failed w; cbv zeta.
  - cbn. repeat split; try lia. exists []. rewrite app_nil_r. split; reflexivity.
  - cbn [summary_loop]. unfold mbind at 1, M_bind at 1, time_time.
    cbv beta iota zeta.
    destruct (PyStr.truthy (error m)); cbv beta iota zeta; run_world;
      destruct (0 <? last_chunks m - initial_chunks m);
      try destruct (last_chunks m - initial_chunks m <? 0);
      run_world;
      match goal with
      | |- context [summary_loop env rest ?s ?f ?w1] =>
          specialize (IH s f w1); cbv zeta in IH;
          destruct IH as (Ic & Ir & Is & Il & body & Ib & Ilen);
          cbn [clock_reads requests sleeps logged stdout] in Ic, Ir, Is, Il, Ib;
          rewrite Ic, Ir, Is, Il, Ib; cbn [length];
          repeat split; try lia;
          eexists; rewrite <- !app_assoc; cbn [app];
          (split; [reflexivity |]); cbn [length]; rewrite ?length_app, Ilen;
          cbn [length]; lia
      end.
Qed.

(** X17. [display_summary] reads the clock once per monitor and does
    nothing else but print: three heading lines, eight lines per monitor,
    and a closing total line whose two counts are the monitors without
    and with an error, and add up to the number of monitors. *)
Theorem display_summary_totals (env : Env) (monitors : list RefreshMonitor) (w : World) :
  let r := display_summary env monitors w in
  clock_reads r.2 = (clock_reads w + length monitors)%nat /\
  requests r.2 = requests w /\ sleeps r.2 = sleeps w /\ logged r.2 = logged w /\
  (exists body,
     length body = (8 * length monitors)%nat /\
     stdout r.2 =
       (stdout w ++ summary_heading ++ body
          ++ [PyStr.repeat_str "=" 80; total_line monitors;
              PyStr.repeat_str "=" 80])%list) /\
  successful_count monitors + failed_count monitors = Z.of_nat (length monitors).
Proof.
  cbv zeta. unfold display_summary. run_world.
  match goal with
  | |- context [summary_loop env monitors 0 0 ?w1] =>
      pose proof (summary_loop_counts env monitors 0 0 w1) as Hcnt;
      pose proof (summary_loop_output env monitors 0 0 w1) as Hout
  end.
  cbv zeta in Hout. destruct Hout as (Oc & Or & Os & Ol & body & Ob & Olen).
  destruct (summary_loop env monitors 0 0 _) as [[s f] w2].
  cbn [fst snd clock_reads requests sleeps logged stdout] in *.
  injection Hcnt as -> ->. rewrite !Z.add_0_l.
  repeat split; try assumption.
  - exists body. split; [exact Olen |].
    unfold summary_heading, total_line. rewrite Ob, <- !app_assoc. reflexivity.
  - unfold successful_count, failed_count.
    rewrite <- Nat2Z.inj_add, Nat.add_comm, List.filter_length. reflexivity.
Qed.

(** X18. When the fifth attempt dies from an exception that is no HTTP
    error, the recorded status is 0: the failure is reported by the
    exception's message alone, without "HTTP" and without hints. *)
Theorem transport_error_is_reported_by_message
    (env : Env) (base_url api_key : string) (store_id : option string)
    (w : World) (e : string) :
  (forall j, (j < 5)%nat -> variant_ok env base_url api_key store_id w j = false) ->
  variant_exchange env base_url api_key store_id w 4 = RaisedOther e ->
  trigger_refresh env base_url api_key store_id w =
    (false,
     logging [(ERROR, "Failed to trigger refresh for store "
                        ++ PyStr.fmt_opt store_id ++ ": " ++ e)]
             (sent (variant_requests base_url api_key store_id) w)).
Proof.
  intros Hall He.
  rewrite (trigger_refresh_exhausted env base_url api_key store_id w Hall), He.
  reflexivity.
Qed.

Lemma transport_error_is_reported_by_message_witness :
  logged (trigger_refresh Offline.env_offline "http://h" "KEY" (Some "id1") world0).2 =
    [(ERROR, "Failed to trigger refresh for store id1: Cannot connect to host")].
Proof.
  rewrite (transport_error_is_reported_by_message Offline.env_offline
             "http://h" "KEY" (Some "id1") world0 "Cannot connect to host").
  - reflexivity.
  - intros j Hj. destruct j as [| [| [| [| [| j]]]]]; [reflexivity .. | lia].
  - reflexivity.
Defined.

(** What the summary prints for one failed monitor whose chunk count
    went down. *)
Lemma summary_block_shrunk (env : Env) (m : RefreshMonitor) (w1 : World) :
  PyStr.truthy (error m) = true ->
  last_chunks m - initial_chunks m < 0 ->
  summary_loop env [m] 0 0 w1 =
    ((0, 1),
     mkWorld (S (clock_reads w1)) (requests w1) (sleeps w1)
       (stdout w1 ++
        [ ("X " ++ store_name m)%string;
          ("   Duration: "
             ++ format_elapsed_time
                  (env_time env (clock_reads w1) - start_time m)%Q)%string;
          ("   Status Checks: " ++ PyStr.str_int (iteration_count m))%string;
          ("   Initial Chunks: " ++ PyStr.fmt_commas (initial_chunks m))%string;
          ("   Final Chunks: " ++ PyStr.fmt_commas (last_chunks m))%string;
          ("   Chunks Changed: "
             ++ PyStr.fmt_commas (last_chunks m - initial_chunks m))%string;
          ("   Result: FAILED - " ++ PyStr.fmt_opt (error m))%string;
          "" ])
       (logged w1)).
Proof.
  intros Ht Hd. cbn [summary_loop]. unfold mbind, M_bind, time_time.
  cbv beta iota zeta. rewrite Ht.
  destruct (Z.ltb_spec 0 (last_chunks m - initial_chunks m)) as [H1 | H1]; [lia |].
  destruct (Z.ltb_spec (last_chunks m - initial_chunks m) 0) as [H2 | H2]; [| lia].
  cbv beta iota zeta delta
    [mbind M_bind mret M_ret print fst snd clock_reads requests sleeps stdout logged].
  rewrite <- !app_assoc. reflexivity.
Qed.

(** X19. A monitor whose trigger failed never polled, so its
    [last_chunks] is still 0: for a store that had [c > 0] chunks the
    summary prints a final count of 0 and a change of [-c]. *)
Theorem failed_trigger_summary_block
    (env : Env) (cfg : Config) (fuel : nat) (base_url api_key : string)
    (s : DocumentStore) (w w' : World) (m : RefreshMonitor) (w1 : World) :
  (trigger_refresh env base_url api_key (ds_id s) (new_monitor env s w).2).1 = false ->
  refresh_and_monitor env cfg fuel base_url api_key s w = (Some m, w') ->
  0 < get (ds_totalChunks s) 0 ->
  let r := summary_loop env [m] 0 0 w1 in
  r.1 = (0, 1) /\
  stdout r.2 =
    (stdout w1 ++
     [ ("X " ++ get (ds_name s) "Unnamed Store")%string;
       ("   Duration: "
          ++ format_elapsed_time
               (env_time env (clock_reads w1) - env_time env (clock_reads w))%Q)%string;
       "   Status Checks: 0";
       ("   Initial Chunks: " ++ PyStr.fmt_commas (get (ds_totalChunks s) 0))%string;
       "   Final Chunks: 0";
       ("   Chunks Changed: "
          ++ PyStr.fmt_commas (0 - get (ds_totalChunks s) 0))%string;
       "   Result: FAILED - Failed to trigger refresh";
       "" ])%list.
Proof.
  intros Hf E Hc. rewrite refresh_and_monitor_unfold in E. cbv zeta in E.
  change (store_id (new_monitor env s w).1) with (ds_id s) in E.
  rewrite Hf in E. injection E as <- _.
  cbv zeta. rewrite summary_block_shrunk.
  - split; reflexivity.
  - reflexivity.
  - cbn. lia.
Qed.

Lemma failed_trigger_summary_block_witness :
  exists m w',
    refresh_and_monitor Samples.env_502 default_config 0 "http://h" "KEY"
      (Samples.docs "UPSERTED" 90) world0 = (Some m, w') /\
    (summary_loop Samples.env_502 [m] 0 0 w').1 = (0, 1) /\
    stdout (summary_loop Samples.env_502 [m] 0 0 w').2 =
      [ "X Docs"; "   Duration: 15s"; "   Status Checks: 0";
        "   Initial Chunks: 90"; "   Final Chunks: 0"; "   Chunks Changed: -90";
        "   Result: FAILED - Failed to trigger refresh"; "" ].
Proof.
  destruct (refresh_and_monitor Samples.env_502 default_config 0 "http://h" "KEY"
              (Samples.docs "UPSERTED" 90) world0) as [[m |] w'] eqn:E;
    [| vm_compute in E; discriminate E].
  exists m, w'. split; [reflexivity |].
  destruct (failed_trigger_summary_block Samples.env_502 default_config 0
              "http://h" "KEY" (Samples.docs "UPSERTED" 90) world0 w' m w'
              eq_refl E ltac:(reflexivity)) as [H1 H2].
  split; [exact H1 |]. rewrite H2.
  vm_compute in E. injection E as <- <-. reflexivity.
Defined.

Lemma format_elapsed_time_parts_witness :
  format_elapsed_time (7325 # 2) = "1h 1m" /\
  format_elapsed_time (251 # 2) = "2m 5s" /\
  format_elapsed_time (119 # 2) = "59s".
Proof.
  split; [| split].
  - destruct (format_elapsed_time_parts (7325 # 2)) as [E _];
      [vm_compute; discriminate | exact E].
  - destruct (format_elapsed_time_parts (251 # 2)) as [E _];
      [vm_compute; discriminate | exact E].
  - destruct (format_elapsed_time_parts (119 # 2)) as [E _];
      [vm_compute; discriminate | exact E].
Defined.

Lemma parse_user_selection_union_witness :
  2 ∈ (parse_user_selection " 3, 1-2 ,7, x" 6 world0).1 <->
  exists part,
    part ∈ ["3"; " 1-2 "; "7"; " x"] /\ 2 ∈ part_numbers 6 part.
Proof.
  apply (parse_user_selection_union " 3, 1-2 ,7, x" 6 world0).
  vm_compute. discriminate.
Defined.

(** What is logged on exhaustion, read off the fifth exchange. *)
Lemma trigger_refresh_exhausted_log
    (env : Env) (base_url api_key : string) (store_id : option string) (w : World) :
  (forall j, (j < 5)%nat -> variant_ok env base_url api_key store_id w j = false) ->
  let last := variant_exchange env base_url api_key store_id w 4 in
  trigger_refresh env base_url api_key store_id w =
    (false,
     logging ((ERROR, "Failed to trigger refresh for store "
                        ++ PyStr.fmt_opt store_id ++ ": " ++ failure_report last)
                :: (if http_status last =? 500 then hints else []))
             (sent (variant_requests base_url api_key store_id) w)).
Proof.
  intros Hall. cbv zeta.
  pose proof (Hall 4%nat ltac:(lia)) as H4. unfold variant_ok in H4.
  rewrite (trigger_refresh_exhausted env base_url api_key store_id w Hall).
  destruct (variant_exchange env base_url api_key store_id w 4)
    as [s t h | s t h | e]; [discriminate H4 | |];
    cbv beta iota zeta delta [error_of try_result http_status failure_report];
    unfold error_line; cbn [String.eqb].
  - destruct (0 <? s); [| reflexivity].
    rewrite append_nil_r. reflexivity.
  - reflexivity.
Qed.

(** X20. [trigger_refresh] returns [False] exactly when all five variants
    fail.  The requests it sends are a prefix of the five variants, all
    five when it fails; the variants are pairwise different, so none
    goes out twice.  When it fails, the one ERROR record it logs is
    about the fifth exchange: "HTTP" and the status code when a response
    arrived, the message of the exception when none did; the hints
    follow for status 500.  The text of a rejected response is not in
    the record. *)
Theorem trigger_refresh_fails_only_on_exhaustion
    (env : Env) (base_url api_key : string) (store_id : option string) (w : World) :
  let vs := variant_requests base_url api_key store_id in
  let r := trigger_refresh env base_url api_key store_id w in
  let last := variant_exchange env base_url api_key store_id w 4 in
  (r.1 = false <->
     forall j, (j < 5)%nat -> variant_ok env base_url api_key store_id w j = false) /\
  (exists n, (n <= 5)%nat /\ requests r.2 = (requests w ++ take n vs)%list /\
             (r.1 = false -> n = 5%nat)) /\
  NoDup vs /\
  (r.1 = false ->
   logged r.2 =
     (logged w ++ (ERROR, ("Failed to trigger refresh for store "
                             ++ PyStr.fmt_opt store_id ++ ": "
                             ++ failure_report last)%string)
               :: (if http_status last =? 500 then hints else []))%list).
Proof.
  cbv zeta.
  assert ((trigger_refresh env base_url api_key store_id w).1 = false <->
          forall j, (j < 5)%nat ->
                    variant_ok env base_url api_key store_id w j = false) as Hiff.
  { split.
    - intros Hf.
      destruct (trigger_refresh_cases env base_url api_key store_id w)
        as [(j & _ & _ & _ & E) | (Hall & _)]; [| exact Hall].
      rewrite E in Hf. discriminate Hf.
    - intros Hall.
      destruct (trigger_refresh_cases env base_url api_key store_id w)
        as [(j & Hj & Hok & _) | (_ & Hf & _)]; [| exact Hf].
      rewrite (Hall j Hj) in Hok. discriminate Hok. }
  split; [exact Hiff |]. split; [| split].
  - destruct (trigger_refresh_frame env base_url api_key store_id w)
      as (_ & _ & _ & n & Hn & E & Hfive).
    exists n. repeat split; assumption.
  - apply variant_requests_NoDup.
  - intros Hf. pose proof (proj1 Hiff Hf) as Hall.
    rewrite (trigger_refresh_exhausted_log env base_url api_key store_id w Hall).
    reflexivity.
Qed.
